(** * weasyprint.navigator: a shallow embedding and its properties

    The module [weasyprint/navigator.py] is a small WSGI application that
    renders a document with WeasyPrint, walks the laid-out box tree for
    hyperlinks and anchors, and serves the pages as one HTML document.

    Python text is modelled by [string]; a character is a code point in
    U+0000..U+00FF (the range of WSGI native strings).  Python integers are
    [Z], Python floats are IEEE 754 binary64 numbers.  Byte strings are
    [list byte]. *)

From Stdlib Require Import String Ascii List ZArith NArith Lia Bool DecimalString.
From Stdlib.Strings Require Import Byte.
From Stdlib Require SpecFloat.
Import ListNotations.

Set Warnings "-register-all".

Local Open Scope string_scope.
Local Open Scope list_scope.

(** ** Python built-ins used by the module *)

Module Py.

(** The characters that cannot be written inside a literal. *)
Definition dq : string := String "034"%char EmptyString.
Definition nl : string := String "010"%char EmptyString.

(** [bool(s)] for a [str]: the empty string is false. *)
Definition truthy (s : string) : bool :=
  match s with
  | EmptyString => false
  | String _ _ => true
  end.

(** [bool(x)] for a value that is [None] or a [str]. *)
Definition truthy_opt (o : option string) : bool :=
  match o with
  | None => false
  | Some s => truthy s
  end.

(** [str(n)] and ['{0}'.format(n)] for an [int]. *)
Definition str (n : Z) : string := NilZero.string_of_int (Z.to_int n).

(** [''.join(parts)]. *)
Definition join (parts : list string) : string :=
  fold_right String.append "" parts.

(** [s.replace(c, '')] for a one-character [c]. *)
Fixpoint replace_char_empty (c : ascii) (s : string) : string :=
  match s with
  | EmptyString => EmptyString
  | String a rest =>
      if Ascii.eqb a c then replace_char_empty c rest
      else String a (replace_char_empty c rest)
  end.

(** [s.startswith(p)]. *)
Definition startswith (s p : string) : bool := String.prefix p s.

(** [s[n:]]. *)
Definition slice_from (n : nat) (s : string) : string :=
  String.substring n (String.length s - n) s.

(** [s.encode('utf8')] on code points up to U+00FF: one byte below
    U+0080, two bytes from there on. *)
Definition encode_char (c : ascii) : list byte :=
  let n := N_of_ascii c in
  if (n <? 128)%N then [byte_of_ascii c]
  else [byte_of_ascii (ascii_of_N (192 + n / 64));
        byte_of_ascii (ascii_of_N (128 + n mod 64))].

Fixpoint encode_utf8 (s : string) : list byte :=
  match s with
  | EmptyString => []
  | String c rest => encode_char c ++ encode_utf8 rest
  end.

(** A bytes literal with ASCII content. *)
Definition b (s : string) : list byte := list_byte_of_string s.

(** [zip] / [itertools.izip]: stops at the end of the shorter input. *)
Fixpoint izip {A B : Type} (xs : list A) (ys : list B) : list (A * B) :=
  match xs, ys with
  | x :: xs', y :: ys' => (x, y) :: izip xs' ys'
  | _, _ => []
  end.

End Py.

(** ** Python numbers *)

(** A [float]: an IEEE 754 binary64 number. *)
Definition float : Type := SpecFloat.spec_float.

(** A number as the layout gives it: an [int] or a [float]. *)
Inductive number : Type :=
| Int (z : Z)
| Float (f : float).

(** [float(k)] for an [int] [k]. *)
Definition float_of_int (k : Z) : float :=
  SpecFloat.binary_normalize 53 1024 k 0 false.

(** [x - k] for a number [x] and an [int] [k]: exact on an [int]; on a
    [float], [k] is converted and the difference rounded to nearest
    even. *)
Definition sub_int (x : number) (k : Z) : number :=
  match x with
  | Int z => Int (z - k)
  | Float f => Float (SpecFloat.SFsub 53 1024 f (float_of_int k))
  end.

(** ['{0}'.format(x)]: the decimal digits of an [int]; for a [float] the
    text the interpreter gives ([str] of the float, which differs between
    versions of Python), taken as [format_float]. *)
Definition format_number (format_float : float -> string) (x : number)
    : string :=
  match x with
  | Int z => Py.str z
  | Float f => format_float f
  end.

(** ** The laid-out box tree (weasyprint.formatting_structure.boxes) *)

(** The computed style of a box, restricted to the two properties the
    navigator reads.  [link] is [None] or a pair [(type, href)];
    [anchor] is [None] or a name. *)
Record Style : Type := mkStyle {
  link : option (string * string);
  anchor : option string
}.

(** [box.hit_area()]: the border box as [(x, y, width, height)], four
    numbers of the layout. *)
Definition HitArea : Type := (number * number * number * number)%type.

(** The classes of boxes the navigator tells apart with [isinstance]:
    text boxes, parent boxes (block, line, inline, page ... boxes, which
    own an ordered list of children) and every other box (replaced boxes),
    which is neither. *)
Inductive Box : Type :=
| TextBox (style : Style) (area : HitArea) (text : string)
| ParentBox (style : Style) (area : HitArea) (children : list Box)
| ReplacedBox (style : Style) (area : HitArea).

Definition style (box : Box) : Style :=
  match box with
  | TextBox s _ _ | ParentBox s _ _ | ReplacedBox s _ => s
  end.

Definition hit_area (box : Box) : HitArea :=
  match box with
  | TextBox _ a _ | ParentBox _ a _ | ReplacedBox _ a => a
  end.

Definition isinstance_TextBox (box : Box) : bool :=
  match box with
  | TextBox _ _ _ => true
  | _ => false
  end.

Definition isinstance_ParentBox (box : Box) : bool :=
  match box with
  | ParentBox _ _ _ => true
  | _ => false
  end.

(** A record is a name or target followed by the four numbers of the hit
    area: [(href,) + box.hit_area()]. *)
Definition LinkRecord : Type := (string * HitArea)%type.
Definition AnchorRecord : Type := (string * HitArea)%type.

(** ** find_links *)

(** The target written for a link of kind [type_] to [href]. *)
Definition link_target (type_ href : string) : string :=
  if String.eqb type_ "internal" then "#" ++ href else "/view/" ++ href.

(** [find_links(box, links, anchors)] appends to the two lists it is
    given; the lists after the call are returned. *)
Fixpoint find_links (box : Box)
    (acc : list LinkRecord * list AnchorRecord)
    : list LinkRecord * list AnchorRecord :=
  let '(links, anchors) := acc in
  let links :=
    match link (style box) with
    | Some (type_, href) =>
        if negb (isinstance_TextBox box)
        then links ++ [(link_target type_ href, hit_area box)]
        else links
    | None => links
    end in
  let anchors :=
    match anchor (style box) with
    | Some name =>
        if Py.truthy name then anchors ++ [(name, hit_area box)]
        else anchors
    | None => anchors
    end in
  match box with
  | ParentBox _ _ children =>
      fold_left (fun acc child => find_links child acc) children
        (links, anchors)
  | _ => (links, anchors)
  end.

(** ** base64.encodestring (Python standard library) *)

Module Base64.

Definition alphabet : string :=
  "ABCDEFGHIJKLMNOPQRSTUVWXYZabcdefghijklmnopqrstuvwxyz0123456789+/".

(** The character of a six-bit value. *)
Definition digit (n : N) : ascii :=
  match String.get (N.to_nat n) alphabet with
  | Some c => c
  | None => "="%char
  end.

(** Three bytes give four characters; a last group of one or two bytes
    is padded with [=]. *)
Fixpoint encode_groups (data : list byte) : string :=
  match data with
  | [] => ""
  | [x] =>
      let x := Byte.to_N x in
      String (digit (x / 4)) (String (digit (x mod 4 * 16)) "==")
  | [x; y] =>
      let x := Byte.to_N x in
      let y := Byte.to_N y in
      String (digit (x / 4))
        (String (digit (x mod 4 * 16 + y / 16))
           (String (digit (y mod 16 * 4)) "="))
  | x :: y :: z :: rest =>
      let x := Byte.to_N x in
      let y := Byte.to_N y in
      let z := Byte.to_N z in
      String (digit (x / 4))
        (String (digit (x mod 4 * 16 + y / 16))
           (String (digit (y mod 16 * 4 + z / 64))
              (String (digit (z mod 64)) (encode_groups rest))))
  end.

(** [binascii.b2a_base64(chunk)]: the encoding and a newline. *)
Definition b2a_base64 (chunk : list byte) : list byte :=
  list_byte_of_string (encode_groups chunk ++ Py.nl).

Definition MAXLINESIZE : nat := 76.
Definition MAXBINSIZE : nat := (MAXLINESIZE / 4) * 3.

(** [range(0, stop, step)]. *)
Definition range0 (stop step : nat) : list nat :=
  map (fun k => k * step) (seq 0 ((stop + step - 1) / step)).

(** [encodestring(s)]: one line of output per [MAXBINSIZE] bytes of
    input. *)
Definition encodestring (s : list byte) : list byte :=
  let pieces :=
    fold_left
      (fun pieces i =>
         let chunk := firstn MAXBINSIZE (skipn i s) in
         pieces ++ [b2a_base64 chunk])
      (range0 (length s) MAXBINSIZE) [] in
  concat pieces.

(** [bs.decode('ascii')].  Python raises on a byte above 0x7F; the
    output of [encodestring] has none (lemma [encodestring_ascii]). *)
Definition decode_ascii (bs : list byte) : string := string_of_list_byte bs.

(** The base64 encoding of [data] on one line, as RFC 4648 defines
    it: the encoding the data URL is compared with. *)
Definition b64encode (data : list byte) : string := encode_groups data.

End Base64.

(** ** The renderer (weasyprint.HTML, weasyprint.CSS) *)

(** [CSS(string=...)]: a parsed stylesheet, known by its source. *)
Record CSS : Type := mkCSS { css_string : string }.

Definition STYLESHEET : CSS :=
  mkCSS (Py.nl ++ "   :root { font-size: 10pt }" ++ Py.nl).

(** One rendered page as the renderer gives it:
    [(width, height, png_bytes)]. *)
Definition PngPage : Type := (Z * Z * list byte)%type.

(** [document.pages]: the root box of every page. *)
Record Document : Type := mkDocument { pages : list Box }.

(** An [HTML] object: a fetched document and what rendering it under a
    list of stylesheets gives. *)
Record Html : Type := mkHtml {
  base_url : string;
  get_png_pages : list CSS -> Document * list PngPage;
  write_pdf : list CSS -> list byte
}.

(** The calls made to the renderer, in order, with the object they are
    made on and the stylesheets they pass. *)
Inductive RendererCall : Type :=
| Call_get_png_pages (self : Html) (stylesheets : list CSS)
| Call_write_pdf (self : Html) (stylesheets : list CSS).

Definition call_stylesheets (c : RendererCall) : list CSS :=
  match c with
  | Call_get_png_pages _ s | Call_write_pdf _ s => s
  end.

(** Exceptions raised by the statements of the module itself.  The module
    catches nothing: a failure of the renderer ([HTML], [get_png_pages],
    [write_pdf]) or of reading the favicon file ends the request with that
    failure.  The model follows the requests in which these calls
    return. *)
Inductive exn : Type :=
| KeyError (key : string)
| IndexError
| TypeError.

(** A computation returns or raises, and leaves a trace of renderer
    calls. *)
Definition M (A : Type) : Type := ((exn + A) * list RendererCall)%type.

Definition ret {A : Type} (a : A) : M A := (inr a, []).
Definition raise {A : Type} (e : exn) : M A := (inl e, []).
Definition tell (c : RendererCall) : M unit := (inr tt, [c]).

Definition bind {A B : Type} (m : M A) (f : A -> M B) : M B :=
  match m with
  | (inl e, t) => (inl e, t)
  | (inr a, t) => let '(r, t') := f a in (r, t ++ t')
  end.

Declare Scope navigator_scope.
Notation "x <- m ;; k" := (bind m (fun x => k))
  (at level 61, m at next level, right associativity) : navigator_scope.
Notation "m ;;; k" := (bind m (fun _ => k))
  (at level 61, right associativity) : navigator_scope.
Local Open Scope navigator_scope.

(** The value and the trace of a computation. *)
Definition result {A : Type} (m : M A) : exn + A := fst m.
Definition trace {A : Type} (m : M A) : list RendererCall := snd m.

(** ** get_pages *)

(** What [get_pages] yields for one page:
    [(width, height, data_url, links, anchors)]. *)
Record Page : Type := mkPage {
  width : Z;
  height : Z;
  image_data_url : string;
  page_links : list LinkRecord;
  page_anchors : list AnchorRecord
}.

Definition data_url_of (png_bytes : list byte) : string :=
  "data:image/png;base64," ++
  Py.replace_char_empty "010"%char
    (Base64.decode_ascii (Base64.encodestring png_bytes)).

(** The body of the loop of [get_pages]. *)
Definition page_of (item : Box * PngPage) : Page :=
  let '(page, (width, height, png_bytes)) := item in
  let '(links, anchors) := find_links page ([], []) in
  let data_url := data_url_of png_bytes in
  mkPage width height data_url links anchors.

(** [get_pages(html)], run to the end of the generator. *)
Definition get_pages (html : Html) : M (list Page) :=
  tell (Call_get_png_pages html [STYLESHEET]) ;;;
  let '(document, png_pages) := get_png_pages html [STYLESHEET] in
  ret (map page_of (Py.izip (pages document) png_pages)).

(** ** render_template, normalize_url, app *)

(** The text [render_template] starts from, up to the opening quote of
    the [value] attribute of the address field. *)
Definition template_head : string :=
  "<!doctype html>" ++ Py.nl ++
  "<meta charset=utf-8>" ++ Py.nl ++
  "<title>WeasyPrint Navigator</title>" ++ Py.nl ++
  "<style>" ++ Py.nl ++
  "  form { position: fixed; z-index: 1; top: 8px; left: 16px; right: 0; }" ++ Py.nl ++
  "  input { font: 24px/30px sans-serif }" ++ Py.nl ++
  "  input:not([type]) { background: rgba(255, 255, 255, .9); border-width: 2px;" ++ Py.nl ++
  "                      border-radius: 6px; padding: 0 3px }" ++ Py.nl ++
  "  input:not([type]):focus { outline: none }" ++ Py.nl ++
  "  body { margin-top: 0; padding-top: 50px }" ++ Py.nl ++
  "  section { box-shadow: 0 0 10px 2px #aaa; margin: 25px; position: relative }" ++ Py.nl ++
  "  section a { position: absolute; display: block }" ++ Py.nl ++
  "  section a[href]:hover, a[href]:focus { outline: 1px dotted }" ++ Py.nl ++
  "</style>" ++ Py.nl ++
  "<body onload=" ++ Py.dq ++ "var u=document.forms[0].url; u.value || u.focus()" ++ Py.dq ++ ">" ++ Py.nl ++
  "<form action=" ++ Py.dq ++ "/" ++ Py.dq ++ " onsubmit=" ++ Py.dq ++ Py.nl ++
  "  window.location.href = '/view/' + this.url.value; return false;" ++ Py.dq ++ ">" ++ Py.nl ++
  "<input name=url style=" ++ Py.dq ++ "width: 80%" ++ Py.dq ++ " placeholder=" ++ Py.dq ++ "Enter an URL to start" ++ Py.dq ++ Py.nl ++
  "  value=" ++ Py.dq.

(** The three [format] calls of the page loop. *)
Definition section_open (width height : Z) (data_url : string) : string :=
  "<section style=" ++ Py.dq ++ "width: " ++ Py.str width ++ "px; height: " ++
  Py.str height ++ "px" ++ Py.dq ++ ">" ++ Py.nl ++
  "  <img src=" ++ Py.dq ++ data_url ++ Py.dq ++ ">" ++ Py.nl.

Definition link_element (format_float : float -> string) (r : LinkRecord)
    : string :=
  let format := format_number format_float in
  let '(href, (pos_x, pos_y, width, height)) := r in
  "  <a style=" ++ Py.dq ++ "left: " ++ format pos_x ++ "px; top: " ++
  format pos_y ++ "px; " ++ "width: " ++ format width ++ "px; height: " ++
  format height ++ "px" ++ Py.dq ++ " href=" ++ Py.dq ++ href ++ Py.dq ++
  "></a>" ++ Py.nl.

Definition anchor_element (format_float : float -> string)
    (r : AnchorRecord) : string :=
  let format := format_number format_float in
  let '(anchor, (pos_x, pos_y, width, height)) := r in
  (* Remove 60px to pos_y so that the real pos is below the address bar. *)
  "  <a style=" ++ Py.dq ++ "left: " ++ format pos_x ++ "px; top: " ++
  format (sub_int pos_y 60) ++ "px;" ++ Py.dq ++ " name=" ++ Py.dq ++
  anchor ++ Py.dq ++ "></a>" ++ Py.nl.

(** The body of the page loop: what one page appends to [parts]. *)
Definition write_page (format_float : float -> string)
    (parts : list string) (page : Page) : list string :=
  let parts :=
    parts ++ [section_open (width page) (height page) (image_data_url page)] in
  let parts :=
    fold_left (fun parts r => parts ++ [link_element format_float r])
      (page_links page) parts in
  let parts :=
    fold_left (fun parts r => parts ++ [anchor_element format_float r])
      (page_anchors page) parts in
  parts ++ [("</section>" ++ Py.nl)%string].

(** A WSGI response: the arguments of [start_response] and the returned
    list of body chunks. *)
Record Response : Type := mkResponse {
  status : string;
  headers : list (string * string);
  body : list (list byte)
}.

(** [environ]: a dictionary from names to native strings. *)
Definition Environ : Type := list (string * string).

Fixpoint dict_get {V : Type} (d : list (string * V)) (key : string)
    : option V :=
  match d with
  | [] => None
  | (k, v) :: rest => if String.eqb k key then Some v else dict_get rest key
  end.

Section Navigator.

(** The text the interpreter gives for a [float]. *)
Variable format_float : float -> string.

(** [weasyprint.urls.url_is_absolute]. *)
Variable url_is_absolute : string -> bool.

(** [HTML(url)]: fetching and parsing the document at [url]. *)
Variable HTML : string -> Html.

(** [weasyprint.compat.parse_qs]. *)
Variable parse_qs : string -> list (string * list string).

(** The bytes of the file at [FAVICON]. *)
Variable FAVICON_bytes : list byte.

Definition render_template (url : option string) : M (list byte) :=
  let parts := [template_head] in
  let '(html, url, parts) :=
    if Py.truthy_opt url then
      match url with
      | Some u =>
          let html := HTML u in
          let url := base_url html in
          (Some html, Some url, parts ++ [url])
      | None => (None, url, parts)
      end
    else (None, url, parts) in
  let parts :=
    parts ++ [(Py.dq ++ " />" ++ Py.nl ++
               "<input type=submit value=Go />" ++ Py.nl)%string] in
  let parts :=
    match url with
    | Some u =>
        if Py.truthy u then
          parts ++ [("<a href=" ++ Py.dq ++ "/pdf/")%string; u;
                    (Py.dq ++ ">PDF</a>" ++ Py.nl)%string]
        else parts
    | None => parts
    end in
  let parts := parts ++ [("</form>" ++ Py.nl)%string] in
  match html with
  | Some html =>
      if Py.truthy_opt url then
        pages <- get_pages html ;;
        ret (Py.encode_utf8
                 (Py.join (fold_left (write_page format_float) pages parts)))
      else ret (Py.encode_utf8 (Py.join parts))
  | None => ret (Py.encode_utf8 (Py.join parts))
  end.

Definition normalize_url (url query_string : option string)
    : option string :=
  match url with
  | Some u =>
      if Py.truthy u then
        let u :=
          match query_string with
          | Some q => if Py.truthy q then (u ++ "?" ++ q)%string else u
          | None => u
          end in
        let u :=
          if negb (url_is_absolute u) then ("http://" ++ u)%string else u in
        Some u
      else None
  | None => None
  end.

(** [make_response] of [app]. *)
Definition make_response (body : list byte) (status content_type : string)
    : Response :=
  mkResponse status
    [("Content-Type", content_type);
     ("Content-Length", Py.str (Z.of_nat (length body)))]
    [body].

Definition app (environ : Environ) : M Response :=
  match dict_get environ "PATH_INFO" with
  | None => raise (KeyError "PATH_INFO")
  | Some path =>
      if String.eqb path "/favicon.ico" then
        ret (make_response FAVICON_bytes "200 OK" "image/x-icon")
      else if Py.startswith path "/pdf/" && Nat.ltb 5 (String.length path) then
        let url :=
          normalize_url (Some (Py.slice_from 5 path))
            (dict_get environ "QUERY_STRING") in
        match url with
        | Some url =>
            let html := HTML url in
            tell (Call_write_pdf html [STYLESHEET]) ;;;
            let body := write_pdf html [STYLESHEET] in
            ret (make_response body "200 OK" "application/pdf")
        | None => raise TypeError
        end
      else if Py.startswith path "/view/" then
        let url :=
          normalize_url (Some (Py.slice_from 6 path))
            (dict_get environ "QUERY_STRING") in
        body <- render_template url ;;
        ret (make_response body "200 OK" "text/html; charset=UTF-8")
      else if String.eqb path "/" then
        let args :=
          parse_qs
            (match dict_get environ "QUERY_STRING" with
             | Some q => q
             | None => ""
             end) in
        match (match dict_get args "url" with
               | Some l => l
               | None => [""]
               end) with
        | first :: _ =>
            let url := normalize_url (Some first) None in
            body <- render_template url ;;
            ret (make_response body "200 OK" "text/html; charset=UTF-8")
        | [] => raise IndexError
        end
      else
        ret (make_response (Py.b "<h1>Not Found</h1>") "404 Not Found"
               "text/html; charset=UTF-8")
  end.

End Navigator.

(** ** Vocabulary of the properties *)

(** Induction on a box tree, with the hypothesis for every child of a
    parent box. *)
Section BoxInduction.

Variable P : Box -> Prop.
Hypothesis text_case : forall s a t, P (TextBox s a t).
Hypothesis parent_case :
  forall s a children, Forall P children -> P (ParentBox s a children).
Hypothesis replaced_case : forall s a, P (ReplacedBox s a).

Fixpoint Box_tree_ind (box : Box) : P box :=
  match box with
  | TextBox s a t => text_case s a t
  | ParentBox s a children =>
      parent_case s a children
        ((fix all (l : list Box) : Forall P l :=
            match l with
            | [] => Forall_nil P
            | c :: l' => Forall_cons c (Box_tree_ind c) (all l')
            end) children)
  | ReplacedBox s a => replaced_case s a
  end.

End BoxInduction.

(** The nodes of a tree in document order (pre-order). *)
Fixpoint nodes (box : Box) : list Box :=
  box ::
  match box with
  | ParentBox _ _ children => flat_map nodes children
  | _ => []
  end.

(** The link record a node gives by itself, if any. *)
Definition own_links (box : Box) : list LinkRecord :=
  match link (style box) with
  | Some (type_, href) =>
      if isinstance_TextBox box then []
      else [(link_target type_ href, hit_area box)]
  | None => []
  end.

(** The anchor style of a node is present: it holds a name, and the name
    passes the test [if anchor:]. *)
Definition anchor_present (box : Box) : bool :=
  Py.truthy_opt (anchor (style box)).

(** The link style of a node is present. *)
Definition link_present (box : Box) : bool :=
  match link (style box) with
  | Some _ => true
  | None => false
  end.

(** The anchor record a node gives by itself, if any. *)
Definition own_anchors (box : Box) : list AnchorRecord :=
  match anchor (style box) with
  | Some name => if Py.truthy name then [(name, hit_area box)] else []
  | None => []
  end.

(** The records of a tree in document order, without the accumulators. *)
Fixpoint links_in (box : Box) : list LinkRecord :=
  own_links box ++
  match box with
  | ParentBox _ _ children => flat_map links_in children
  | _ => []
  end.

Fixpoint anchors_in (box : Box) : list AnchorRecord :=
  own_anchors box ++
  match box with
  | ParentBox _ _ children => flat_map anchors_in children
  | _ => []
  end.

(** The number of nodes of a tree that satisfy a test. *)
Definition count_nodes (test : Box -> bool) (box : Box) : nat :=
  length (filter test (nodes box)).

(** What [find_links] leaves in two lists that were empty. *)
Definition links_of (box : Box) : list LinkRecord :=
  fst (find_links box ([], [])).
Definition anchors_of (box : Box) : list AnchorRecord :=
  snd (find_links box ([], [])).

(** [s] occurs in [t] as a contiguous run. *)
Definition occurs_in {A : Type} (s t : list A) : Prop :=
  exists before after, t = before ++ s ++ after.

(** The same as a test, for byte strings. *)
Fixpoint starts_with (s t : list byte) : bool :=
  match s, t with
  | [], _ => true
  | x :: s', y :: t' => Byte.eqb x y && starts_with s' t'
  | _ :: _, [] => false
  end.

Fixpoint occursb (s t : list byte) : bool :=
  starts_with s t ||
  match t with
  | [] => false
  | _ :: t' => occursb s t'
  end.

(** What the page loop of [render_template] writes for one page. *)
Definition page_parts (format_float : float -> string) (page : Page)
    : list string :=
  [section_open (width page) (height page) (image_data_url page)] ++
  map (link_element format_float) (page_links page) ++
  map (anchor_element format_float) (page_anchors page) ++
  [("</section>" ++ Py.nl)%string].

(** What [render_template] writes before the page loop when the document
    was opened and its base URL is [url]. *)
Definition form_parts (url : string) : list string :=
  [template_head; url;
   (Py.dq ++ " />" ++ Py.nl ++ "<input type=submit value=Go />" ++
    Py.nl)%string;
   ("<a href=" ++ Py.dq ++ "/pdf/")%string; url;
   (Py.dq ++ ">PDF</a>" ++ Py.nl)%string;
   ("</form>" ++ Py.nl)%string].

(** The document [render_template] gives without a URL. *)
Definition empty_form : string :=
  template_head ++ Py.dq ++ " />" ++ Py.nl ++
  "<input type=submit value=Go />" ++ Py.nl ++ "</form>" ++ Py.nl.

(** Modelled from the spec: [weasyprint.urls.url_is_absolute], which is
    not part of this module.  A URL is absolute when it has a scheme: a
    letter, then letters, digits, [+], [-] or [.], then a colon. *)
Definition is_alpha (c : ascii) : bool :=
  let n := nat_of_ascii c in
  (Nat.leb 65 n && Nat.leb n 90) || (Nat.leb 97 n && Nat.leb n 122).

Definition is_scheme_char (c : ascii) : bool :=
  let n := nat_of_ascii c in
  is_alpha c || (Nat.leb 48 n && Nat.leb n 57) ||
  Ascii.eqb c "+" || Ascii.eqb c "-" || Ascii.eqb c ".".

Fixpoint scheme_rest (s : string) : bool :=
  match s with
  | EmptyString => false
  | String c rest =>
      if Ascii.eqb c ":" then true
      else if is_scheme_char c then scheme_rest rest
      else false
  end.

Definition has_scheme (url : string) : bool :=
  match url with
  | EmptyString => false
  | String c rest => is_alpha c && scheme_rest rest
  end.

(** The characters a data URL is made of: letters, digits and
    [+ / = : ; ,]. *)
Definition data_url_char (c : ascii) : bool :=
  let n := nat_of_ascii c in
  is_alpha c || (Nat.leb 48 n && Nat.leb n 57) ||
  existsb (Ascii.eqb c) (list_ascii_of_string "+/=:;,").

(** The response of [app] to a path it does not serve. *)
Definition not_found : Response :=
  mkResponse "404 Not Found"
    [("Content-Type", "text/html; charset=UTF-8"); ("Content-Length", "18")]
    [Py.b "<h1>Not Found</h1>"].

(** A response as [make_response] builds them: one body chunk, and the
    two headers, the second with the length of the chunk in decimal. *)
Definition made_response (r : Response) : Prop :=
  exists chunk content_type,
    body r = [chunk] /\
    headers r =
    [("Content-Type", content_type);
     ("Content-Length", Py.str (Z.of_nat (length chunk)))] /\
    (status r = "200 OK" \/ status r = "404 Not Found").

(** A trace with at most one renderer call, made with the list
    [[STYLESHEET]]. *)
Definition at_most_one_styled_call (t : list RendererCall) : Prop :=
  t = [] \/
  exists html,
    t = [Call_write_pdf html [STYLESHEET]] \/
    t = [Call_get_png_pages html [STYLESHEET]].

(** [environ.get('QUERY_STRING', '')]. *)
Definition query_or_empty (environ : Environ) : string :=
  match dict_get environ "QUERY_STRING" with
  | Some q => q
  | None => ""
  end.

(** The text Python 3 gives for the floats the examples use. *)
Definition format_float_example (f : float) : string :=
  match
    find (fun entry => SpecFloat.SFeqb f (float_of_int (fst entry)))
      [(0, "0.0"); (10, "10.0"); (20, "20.0"); (30, "30.0"); (50, "50.0");
       (100, "100.0"); (140, "140.0"); (200, "200.0")]%Z
  with
  | Some entry => snd entry
  | None => "nan"
  end.

(** ** Properties of find_links *)

Section FindLinks.

Lemma own_links_text s a t : own_links (TextBox s a t) = [].
Proof. unfold own_links; simpl. destruct (link s) as [[? ?]|]; reflexivity. Qed.

(** One step of [find_links]: the node's own records, then the
    children in order, on the same two lists. *)
Lemma find_links_step box links anchors :
  find_links box (links, anchors) =
  match box with
  | ParentBox _ _ children =>
      fold_left (fun acc child => find_links child acc) children
        (links ++ own_links box, anchors ++ own_anchors box)
  | _ => (links ++ own_links box, anchors ++ own_anchors box)
  end.
Proof.
  unfold own_links, own_anchors.
  destruct box as [s a t | s a cs | s a]; simpl;
    destruct (link s) as [[ty hr]|]; destruct (anchor s) as [n|];
    try destruct (Py.truthy n); rewrite ?app_nil_r; reflexivity.
Qed.

Lemma find_links_children children :
  Forall (fun c => forall links anchors,
            find_links c (links, anchors) =
            (links ++ links_in c, anchors ++ anchors_in c)) children ->
  forall links anchors,
    fold_left (fun acc child => find_links child acc) children
      (links, anchors) =
    (links ++ flat_map links_in children,
     anchors ++ flat_map anchors_in children).
Proof.
  induction 1 as [| c cs Hc _ IH]; intros links anchors; simpl.
  - now rewrite !app_nil_r.
  - rewrite Hc, IH. now rewrite <- !app_assoc.
Qed.

(** [find_links] appends the records of the tree, in document order,
    to whatever the lists held. *)
Lemma find_links_appends box :
  forall links anchors,
    find_links box (links, anchors) =
    (links ++ links_in box, anchors ++ anchors_in box).
Proof.
  induction box as [s a t | s a cs IH | s a] using Box_tree_ind;
    intros links anchors; rewrite find_links_step.
  - simpl. now rewrite !app_nil_r.
  - rewrite (find_links_children cs IH). simpl.
    now rewrite <- !app_assoc.
  - simpl. now rewrite !app_nil_r.
Qed.

Lemma links_of_eq box : links_of box = links_in box.
Proof. unfold links_of. now rewrite find_links_appends. Qed.

Lemma anchors_of_eq box : anchors_of box = anchors_in box.
Proof. unfold anchors_of. now rewrite find_links_appends. Qed.

Lemma links_in_nodes box : links_in box = flat_map own_links (nodes box).
Proof.
  induction box as [s a t | s a cs IH | s a] using Box_tree_ind; simpl;
    rewrite ?app_nil_r; try reflexivity.
  f_equal. induction IH as [| c cs' Hc _ IH']; simpl; [reflexivity |].
  now rewrite flat_map_app, Hc, IH'.
Qed.

Lemma anchors_in_nodes box :
  anchors_in box = flat_map own_anchors (nodes box).
Proof.
  induction box as [s a t | s a cs IH | s a] using Box_tree_ind; simpl;
    rewrite ?app_nil_r; try reflexivity.
  f_equal. induction IH as [| c cs' Hc _ IH']; simpl; [reflexivity |].
  now rewrite flat_map_app, Hc, IH'.
Qed.

(** Counting the records of a list of nodes that give at most one
    each. *)
Lemma length_flat_map_test {A R : Type} (own : A -> list R)
    (test : A -> bool) (l : list A) :
  (forall x, length (own x) = if test x then 1 else 0) ->
  length (flat_map own l) = length (filter test l).
Proof.
  intros H. induction l as [| x l IH]; simpl; [reflexivity |].
  rewrite length_app, H, IH. destruct (test x); reflexivity.
Qed.

End FindLinks.

Section FindLinksCounts.

Lemma own_links_length box :
  length (own_links box) =
  if link_present box && negb (isinstance_TextBox box) then 1 else 0.
Proof.
  unfold own_links, link_present.
  destruct (link (style box)) as [[ty hr]|]; [| reflexivity].
  destruct (isinstance_TextBox box); reflexivity.
Qed.

Lemma own_anchors_length box :
  length (own_anchors box) = if anchor_present box then 1 else 0.
Proof.
  unfold own_anchors, anchor_present.
  destruct (anchor (style box)) as [n|]; simpl; [| reflexivity].
  destruct (Py.truthy n); reflexivity.
Qed.

(** Link records are counted by the nodes that carry a link and are
    not text boxes. *)
Lemma links_count box :
  length (links_of box) =
  count_nodes (fun b => link_present b && negb (isinstance_TextBox b)) box.
Proof.
  rewrite links_of_eq, links_in_nodes. unfold count_nodes.
  apply length_flat_map_test, own_links_length.
Qed.

Lemma text_children_no_links children :
  Forall (fun c => isinstance_TextBox c = true) children ->
  flat_map links_in children = [].
Proof.
  induction 1 as [| c cs Hc _ IH]; simpl; [reflexivity |].
  rewrite IH, app_nil_r.
  destruct c as [s a t | |]; try discriminate.
  simpl. now rewrite own_links_text.
Qed.

Lemma link_target_forms type_ href :
  (type_ = "internal" /\ link_target type_ href = ("#" ++ href)%string) \/
  (type_ <> "internal" /\ link_target type_ href = ("/view/" ++ href)%string).
Proof.
  unfold link_target.
  destruct (String.eqb_spec type_ "internal"); [left | right]; now split.
Qed.

Lemma link_target_one_form type_ href :
  ~ (String.prefix "#" (link_target type_ href) = true /\
     String.prefix "/view/" (link_target type_ href) = true).
Proof.
  unfold link_target.
  destruct (String.eqb type_ "internal"); simpl; intros [H1 H2];
    discriminate.
Qed.

Lemma own_links_origin box r :
  In r (own_links box) ->
  exists type_ href,
    link (style box) = Some (type_, href) /\
    isinstance_TextBox box = false /\
    r = (link_target type_ href, hit_area box).
Proof.
  unfold own_links.
  destruct (link (style box)) as [[ty hr]|]; [| intros []].
  destruct (isinstance_TextBox box); [intros [] |].
  intros [<- | []]. now exists ty, hr.
Qed.

End FindLinksCounts.

(** ** Main results on find_links *)

(** C2.  When a parent box carries a link and all its children are text
    boxes, [find_links] gives exactly one link record, the one of the
    parent box, and none for the children; in any tree the link records
    are as many as the nodes that carry a link and are not text boxes, and
    a text box alone gives none. *)
Theorem find_links_link_on_container :
  forall s a children type_ href,
    link s = Some (type_, href) ->
    Forall (fun c => isinstance_TextBox c = true) children ->
    links_of (ParentBox s a children) = [(link_target type_ href, a)] /\
    (forall c, In c children -> links_of c = []) /\
    (forall s' a' t', links_of (TextBox s' a' t') = []) /\
    (forall box,
        length (links_of box) =
        count_nodes
          (fun b => link_present b && negb (isinstance_TextBox b)) box).
Proof.
  intros s a children type_ href Hlink Htext. repeat split.
  - rewrite links_of_eq. simpl.
    rewrite (text_children_no_links children Htext).
    unfold own_links. simpl. now rewrite Hlink.
  - intros c Hc. rewrite Forall_forall in Htext.
    specialize (Htext c Hc). destruct c as [s' a' t' | |]; try discriminate.
    rewrite links_of_eq. simpl. now rewrite own_links_text.
  - intros s' a' t'. rewrite links_of_eq. simpl. now rewrite own_links_text.
  - apply links_count.
Qed.

Lemma find_links_link_on_container_witness :
  links_of
    (ParentBox (mkStyle (Some ("external", "http://a.org/")) None)
       (Int 10, Int 20, Int 100, Int 30)
       [TextBox (mkStyle (Some ("external", "http://a.org/")) None)
          (Int 10, Int 20, Int 40, Int 30) "click";
        TextBox (mkStyle (Some ("external", "http://a.org/")) None)
          (Int 50, Int 20, Int 60, Int 30) "here"]) =
  [("/view/http://a.org/", (Int 10, Int 20, Int 100, Int 30))].
Proof.
  apply (find_links_link_on_container
           (mkStyle (Some ("external", "http://a.org/")) None)
           (Int 10, Int 20, Int 100, Int 30) _ "external" "http://a.org/").
  - reflexivity.
  - repeat constructor.
Defined.

(** C3.  The anchor records [find_links] gives for a tree are as many as
    the nodes of the tree whose anchor style is present, whatever the kind
    of the node and the shape of the tree. *)
Theorem find_links_anchor_count :
  forall box, length (anchors_of box) = count_nodes anchor_present box.
Proof.
  intros box. rewrite anchors_of_eq, anchors_in_nodes. unfold count_nodes.
  apply length_flat_map_test, own_anchors_length.
Qed.

(** C4.  Every link record [find_links] gives comes from a node with a
    link [(type, href)] and has the target ["#" + href] when the type is
    ["internal"] and ["/view/" + href] otherwise; no target has both
    forms. *)
Theorem find_links_target_forms :
  forall box r,
    In r (links_of box) ->
    (exists node type_ href,
        In node (nodes box) /\
        link (style node) = Some (type_, href) /\
        snd r = hit_area node /\
        ((type_ = "internal" /\ fst r = ("#" ++ href)%string) \/
         (type_ <> "internal" /\ fst r = ("/view/" ++ href)%string))) /\
    ~ (String.prefix "#" (fst r) = true /\
       String.prefix "/view/" (fst r) = true).
Proof.
  intros box r Hr. rewrite links_of_eq, links_in_nodes in Hr.
  apply in_flat_map in Hr. destruct Hr as [node [Hnode Hown]].
  apply own_links_origin in Hown.
  destruct Hown as [ty [hr [Hlink [_ ->]]]]. split.
  - exists node, ty, hr. repeat split; try assumption.
    apply link_target_forms.
  - apply link_target_one_form.
Qed.

Lemma find_links_target_forms_witness :
  let box :=
    ParentBox (mkStyle None None) (Int 0, Int 0, Int 800, Int 600)
      [ParentBox (mkStyle (Some ("internal", "sec1")) None)
         (Int 10, Int 20, Int 100, Int 30)
         [TextBox (mkStyle (Some ("internal", "sec1")) None)
            (Int 10, Int 20, Int 100, Int 30) "to section 1"];
       ReplacedBox (mkStyle (Some ("external", "http://a.org/")) None)
         (Int 0, Int 60, Int 32, Int 32)] in
  In ("/view/http://a.org/", (Int 0, Int 60, Int 32, Int 32))
    (links_of box) /\
  ~ (String.prefix "#" "/view/http://a.org/" = true /\
     String.prefix "/view/" "/view/http://a.org/" = true).
Proof.
  intros box.
  assert (H : In ("/view/http://a.org/", (Int 0, Int 60, Int 32, Int 32)) (links_of box))
    by (right; left; reflexivity).
  split; [exact H |].
  exact (proj2 (find_links_target_forms box _ H)).
Defined.

(** ** Facts about the Python built-ins *)

Section StringFacts.

Lemma append_nil_r (s : string) : (s ++ "")%string = s.
Proof. induction s as [| c s IH]; simpl; [reflexivity | now rewrite IH]. Qed.

Lemma append_assoc (s t u : string) :
  ((s ++ t) ++ u)%string = (s ++ (t ++ u))%string.
Proof. induction s as [| c s IH]; simpl; [reflexivity | now rewrite IH]. Qed.

Lemma forallb_map_comp {A B : Type} (g : A -> B) (test : B -> bool)
    (l : list A) :
  forallb test (map g l) = forallb (fun x => test (g x)) l.
Proof. induction l as [| x l IH]; simpl; [reflexivity | now rewrite IH]. Qed.

Lemma join_cons (s : string) (l : list string) :
  Py.join (s :: l) = (s ++ Py.join l)%string.
Proof. reflexivity. Qed.

Lemma join_app (l1 l2 : list string) :
  Py.join (l1 ++ l2) = (Py.join l1 ++ Py.join l2)%string.
Proof.
  induction l1 as [| s l1 IH]; simpl; [reflexivity |].
  now rewrite IH, append_assoc.
Qed.

Lemma list_ascii_app (s t : string) :
  list_ascii_of_string (s ++ t) =
  list_ascii_of_string s ++ list_ascii_of_string t.
Proof. induction s as [| c s IH]; simpl; [reflexivity | now rewrite IH]. Qed.

Lemma list_byte_of_string_app (s t : string) :
  list_byte_of_string (s ++ t) =
  list_byte_of_string s ++ list_byte_of_string t.
Proof.
  unfold list_byte_of_string. now rewrite list_ascii_app, map_app.
Qed.

Lemma string_of_list_byte_app (x y : list byte) :
  string_of_list_byte (x ++ y) =
  (string_of_list_byte x ++ string_of_list_byte y)%string.
Proof.
  unfold string_of_list_byte. rewrite map_app.
  induction (map ascii_of_byte x) as [| c l IH]; simpl;
    [reflexivity | now rewrite IH].
Qed.

Lemma replace_char_empty_app c (s t : string) :
  Py.replace_char_empty c (s ++ t) =
  (Py.replace_char_empty c s ++ Py.replace_char_empty c t)%string.
Proof.
  induction s as [| a s IH]; simpl; [reflexivity |].
  destruct (Ascii.eqb a c); simpl; now rewrite IH.
Qed.

(** Removing a character that does not occur changes nothing. *)
Lemma replace_char_empty_absent c (s : string) :
  forallb (fun a => negb (Ascii.eqb a c)) (list_ascii_of_string s) = true ->
  Py.replace_char_empty c s = s.
Proof.
  induction s as [| a s IH]; simpl; [reflexivity |].
  intros H. apply andb_true_iff in H. destruct H as [Ha Hs].
  destruct (Ascii.eqb a c); [discriminate |]. now rewrite IH.
Qed.

(** After the removal the character does not occur. *)
Lemma replace_char_empty_removes c (s : string) :
  ~ In c (list_ascii_of_string (Py.replace_char_empty c s)).
Proof.
  induction s as [| a s IH]; simpl; [tauto |].
  destruct (Ascii.eqb_spec a c) as [-> | Hne]; [exact IH |].
  simpl. intros [Heq | Hin]; [now apply Hne | now apply IH].
Qed.

Lemma get_forallb (test : ascii -> bool) (s : string) :
  forallb test (list_ascii_of_string s) = true ->
  forall k c, String.get k s = Some c -> test c = true.
Proof.
  induction s as [| a s IH]; simpl; intros H k c Hget; [discriminate |].
  apply andb_true_iff in H. destruct H as [Ha Hs].
  destruct k as [| k]; [now inversion Hget; subst | now apply (IH Hs k)].
Qed.

Lemma encode_utf8_app (s t : string) :
  Py.encode_utf8 (s ++ t) = Py.encode_utf8 s ++ Py.encode_utf8 t.
Proof.
  induction s as [| c s IH]; simpl; [reflexivity |].
  now rewrite IH, app_assoc.
Qed.

Lemma fold_left_append {A B : Type} (f : A -> B) (l : list A) :
  forall acc,
    fold_left (fun acc x => acc ++ [f x]) l acc = acc ++ map f l.
Proof.
  induction l as [| x l IH]; intros acc; simpl.
  - now rewrite app_nil_r.
  - now rewrite IH, <- app_assoc.
Qed.

Lemma izip_length {A B : Type} (xs : list A) (ys : list B) :
  length (Py.izip xs ys) = Nat.min (length xs) (length ys).
Proof.
  revert ys. induction xs as [| x xs IH]; intros [| y ys]; simpl;
    try reflexivity.
  now rewrite IH.
Qed.

Lemma izip_fst {A B : Type} (xs : list A) (ys : list B) :
  map fst (Py.izip xs ys) =
  firstn (Nat.min (length xs) (length ys)) xs.
Proof.
  revert ys. induction xs as [| x xs IH]; intros [| y ys]; simpl;
    try reflexivity.
  now rewrite IH.
Qed.

Lemma izip_snd {A B : Type} (xs : list A) (ys : list B) :
  map snd (Py.izip xs ys) =
  firstn (Nat.min (length xs) (length ys)) ys.
Proof.
  revert ys. induction xs as [| x xs IH]; intros [| y ys]; simpl;
    try reflexivity.
  now rewrite IH.
Qed.

End StringFacts.

(** ** Facts about base64.encodestring *)

Section Base64Facts.

Import Base64.

(** Every character of an encoding is a digit of the alphabet or the
    padding. *)
Lemma digit_forallb (test : ascii -> bool) :
  test "="%char = true ->
  forallb test (list_ascii_of_string alphabet) = true ->
  forall n, test (digit n) = true.
Proof.
  intros Hpad Halpha n. unfold digit.
  destruct (String.get (N.to_nat n) alphabet) as [c|] eqn:Hget;
    [| exact Hpad].
  exact (get_forallb test alphabet Halpha _ _ Hget).
Qed.

Lemma encode_groups_forallb (test : ascii -> bool) :
  test "="%char = true ->
  forallb test (list_ascii_of_string alphabet) = true ->
  forall data,
    forallb test (list_ascii_of_string (encode_groups data)) = true.
Proof.
  intros Hpad Halpha.
  assert (Hd := digit_forallb test Hpad Halpha).
  assert (H : forall n data, length data <= n ->
            forallb test (list_ascii_of_string (encode_groups data)) = true).
  { induction n as [| n IH]; intros data Hlen.
    - destruct data; [reflexivity | simpl in Hlen; lia].
    - destruct data as [| x [| y [| z rest]]]; simpl;
        rewrite ?Hd, ?Hpad; try reflexivity.
      apply IH. simpl in Hlen. lia. }
  intros data. now apply (H (length data)).
Qed.

(** A chunk whose length is a multiple of three is encoded without
    padding, so that encodings of such chunks concatenate. *)
Lemma encode_groups_app (k : nat) :
  forall chunk rest,
    length chunk = 3 * k ->
    encode_groups (chunk ++ rest) =
    (encode_groups chunk ++ encode_groups rest)%string.
Proof.
  induction k as [| k IH]; intros chunk rest Hlen.
  - destruct chunk; [reflexivity | discriminate].
  - destruct chunk as [| x [| y [| z chunk]]]; simpl in Hlen; try lia.
    change (encode_groups ((x :: y :: z :: chunk) ++ rest))
      with (String (digit (Byte.to_N x / 4))
              (String (digit (Byte.to_N x mod 4 * 16 + Byte.to_N y / 16))
                 (String (digit (Byte.to_N y mod 16 * 4 + Byte.to_N z / 64))
                    (String (digit (Byte.to_N z mod 64))
                       (encode_groups (chunk ++ rest)))))).
    rewrite (IH chunk rest) by lia. reflexivity.
Qed.

Lemma MAXBINSIZE_eq : MAXBINSIZE = 3 * 19.
Proof. reflexivity. Qed.

Lemma encode_groups_split (s : list byte) :
  (encode_groups (firstn MAXBINSIZE s) ++
   encode_groups (skipn MAXBINSIZE s))%string = encode_groups s.
Proof.
  destruct (Nat.le_gt_cases MAXBINSIZE (length s)) as [Hge | Hlt].
  - rewrite <- (firstn_skipn MAXBINSIZE s) at 3.
    symmetry. apply (encode_groups_app 19).
    rewrite length_firstn, <- MAXBINSIZE_eq. lia.
  - rewrite firstn_all2, skipn_all2 by lia. apply append_nil_r.
Qed.

Lemma chunk_count_succ (n : nat) :
  0 < n ->
  (n + MAXBINSIZE - 1) / MAXBINSIZE =
  S ((n - MAXBINSIZE + MAXBINSIZE - 1) / MAXBINSIZE).
Proof.
  change MAXBINSIZE with 57. intros Hpos.
  destruct (Nat.le_gt_cases n 57) as [Hle | Hgt].
  - replace (n - 57 + 57 - 1) with 56 by lia.
    rewrite (Nat.div_small 56 57) by lia.
    symmetry. apply (Nat.div_unique _ _ 1 (n - 1)); lia.
  - replace (n + 57 - 1) with ((n - 57 + 57 - 1) + 1 * 57) by lia.
    rewrite Nat.div_add by lia. lia.
Qed.

(** The encodings of the chunks, one after the other, are the encoding
    of the whole input. *)
Lemma encode_chunks (m : nat) :
  forall s,
    length s <= m ->
    Py.join
      (map (fun i => encode_groups (firstn MAXBINSIZE (skipn i s)))
         (range0 (length s) MAXBINSIZE)) =
    encode_groups s.
Proof.
  induction m as [| m IH]; intros s Hlen.
  - destruct s; [reflexivity | simpl in Hlen; lia].
  - destruct s as [| x s]; [reflexivity |].
    unfold range0. rewrite chunk_count_succ by (simpl; lia).
    rewrite <- cons_seq, <- seq_shift, !map_cons, !map_map.
    rewrite join_cons, Nat.mul_0_l, skipn_O.
    rewrite <- (encode_groups_split (x :: s)). f_equal.
    rewrite <- (IH (skipn MAXBINSIZE (x :: s))).
    + unfold range0. rewrite length_skipn, map_map. f_equal.
      apply map_ext. intros k.
      replace (S k * MAXBINSIZE) with (MAXBINSIZE + k * MAXBINSIZE) by lia.
      now rewrite Nat.add_comm, skipn_skipn.
    + rewrite length_skipn. change MAXBINSIZE with 57.
      simpl length in *. lia.
Qed.

Lemma encodestring_pieces (s : list byte) :
  encodestring s =
  concat
    (map (fun i => b2a_base64 (firstn MAXBINSIZE (skipn i s)))
       (range0 (length s) MAXBINSIZE)).
Proof. unfold encodestring. now rewrite fold_left_append. Qed.

Lemma not_newline_alphabet :
  forallb (fun a => negb (Ascii.eqb a "010"%char))
    (list_ascii_of_string alphabet) = true.
Proof. reflexivity. Qed.

(** Without its newlines, the output of [encodestring] is the
    one-line encoding. *)
Lemma encodestring_without_newlines (s : list byte) :
  Py.replace_char_empty "010"%char (decode_ascii (encodestring s)) =
  b64encode s.
Proof.
  unfold b64encode. rewrite <- (encode_chunks (length s) s (le_n _)).
  rewrite encodestring_pieces. unfold decode_ascii.
  induction (range0 (length s) MAXBINSIZE) as [| i l IH];
    [reflexivity |].
  cbn [map concat]. rewrite join_cons.
  rewrite string_of_list_byte_app, replace_char_empty_app, IH. f_equal.
  unfold b2a_base64.
  rewrite string_of_list_byte_of_string, replace_char_empty_app.
  rewrite replace_char_empty_absent
    by (apply encode_groups_forallb; reflexivity).
  apply append_nil_r.
Qed.

(** The output of [encodestring] is ASCII, so that decoding it never
    raises. *)
Lemma encodestring_ascii (s : list byte) :
  forallb (fun x => (Byte.to_N x <? 128)%N) (encodestring s) = true.
Proof.
  rewrite encodestring_pieces.
  induction (range0 (length s) MAXBINSIZE) as [| i l IH];
    [reflexivity |].
  cbn [map concat]. rewrite forallb_app, IH, andb_true_r.
  unfold b2a_base64, list_byte_of_string.
  rewrite list_ascii_app, map_app, forallb_app. simpl.
  rewrite andb_true_r, forallb_map_comp.
  apply (encode_groups_forallb
           (fun a => (Byte.to_N (byte_of_ascii a) <? 128)%N));
    reflexivity.
Qed.

End Base64Facts.

(** ** Properties of get_pages *)

Section GetPages.

Variable html : Html.

(** [get_pages] makes one call to the renderer and then cannot raise. *)
Lemma get_pages_run :
  get_pages html =
  (inr (map page_of
          (Py.izip (pages (fst (get_png_pages html [STYLESHEET])))
             (snd (get_png_pages html [STYLESHEET])))),
   [Call_get_png_pages html [STYLESHEET]]).
Proof.
  unfold get_pages, bind, tell, ret.
  destruct (get_png_pages html [STYLESHEET]) as [document png_pages].
  reflexivity.
Qed.

Lemma page_of_links (item : Box * PngPage) :
  page_links (page_of item) = links_of (fst item).
Proof.
  destruct item as [page [[w h] png_bytes]]. unfold page_of, links_of.
  simpl. destruct (find_links page ([], [])); reflexivity.
Qed.

Lemma page_of_anchors (item : Box * PngPage) :
  page_anchors (page_of item) = anchors_of (fst item).
Proof.
  destruct item as [page [[w h] png_bytes]]. unfold page_of, anchors_of.
  simpl. destruct (find_links page ([], [])); reflexivity.
Qed.

Lemma page_of_size (item : Box * PngPage) :
  (width (page_of item), height (page_of item)) = fst (snd item).
Proof.
  destruct item as [page [[w h] png_bytes]]. unfold page_of.
  destruct (find_links page ([], [])); reflexivity.
Qed.

Lemma page_of_data_url (item : Box * PngPage) :
  image_data_url (page_of item) =
  ("data:image/png;base64," ++ Base64.b64encode (snd (snd item)))%string.
Proof.
  destruct item as [page [[w h] png_bytes]]. unfold page_of.
  destruct (find_links page ([], [])). simpl. unfold data_url_of.
  now rewrite encodestring_without_newlines.
Qed.

Lemma data_url_no_newline (png_bytes : list byte) :
  ~ In "010"%char (list_ascii_of_string (data_url_of png_bytes)).
Proof.
  unfold data_url_of. rewrite list_ascii_app. intros H.
  apply in_app_or in H. destruct H as [H | H].
  - simpl in H. repeat (destruct H as [H | H]; [discriminate |]).
    exact H.
  - exact (replace_char_empty_removes _ _ H).
Qed.

Lemma page_of_no_newline (item : Box * PngPage) :
  ~ In "010"%char (list_ascii_of_string (image_data_url (page_of item))).
Proof.
  destruct item as [page [[w h] png_bytes]]. unfold page_of.
  destruct (find_links page ([], [])). simpl.
  apply data_url_no_newline.
Qed.

Lemma get_pages_returns : exists ps, result (get_pages html) = inr ps.
Proof. eexists. unfold result. rewrite get_pages_run. reflexivity. Qed.

End GetPages.

(** ** Main results on get_pages *)

(** C1, as the code has it.  [get_pages] does not compare the lengths of
    the two enumerations: it pairs them with [izip], returns without
    raising, and gives one page for each of the first [min m n] entries of
    both, the links of a page from its box tree and its size from its
    rendering. *)
Theorem get_pages_pairs_up_to_shorter :
  forall html,
    let boxes := pages (fst (get_png_pages html [STYLESHEET])) in
    let pngs := snd (get_png_pages html [STYLESHEET]) in
    let n := Nat.min (length boxes) (length pngs) in
    exists ps,
      result (get_pages html) = inr ps /\
      length ps = n /\
      map page_links ps = map links_of (firstn n boxes) /\
      map page_anchors ps = map anchors_of (firstn n boxes) /\
      map (fun p => (width p, height p)) ps = map fst (firstn n pngs).
Proof.
  intros html boxes pngs n.
  exists (map page_of (Py.izip boxes pngs)). repeat split.
  - unfold result. now rewrite get_pages_run.
  - now rewrite length_map, izip_length.
  - unfold n. rewrite <- izip_fst, !map_map.
    apply map_ext. intros item. apply page_of_links.
  - unfold n. rewrite <- izip_fst, !map_map.
    apply map_ext. intros item. apply page_of_anchors.
  - unfold n. rewrite <- izip_snd, !map_map.
    apply map_ext. intros item. apply page_of_size.
Qed.

(** C1 with a fatal error on unequal lengths does not hold: with two box
    trees and one rendered page, [get_pages] returns a sequence of one
    page. *)
Lemma get_pages_unequal_lengths_returns :
  let html :=
    mkHtml "http://a.org/"
      (fun _ =>
         (mkDocument
            [ParentBox (mkStyle None None) (Int 0, Int 0, Int 800, Int 600) [];
             ParentBox (mkStyle None (Some "end")) (Int 0, Int 0, Int 800, Int 600) []],
          [(800, 600, Py.b "ab")%Z]))
      (fun _ => []) in
  length (pages (fst (get_png_pages html [STYLESHEET]))) <>
  length (snd (get_png_pages html [STYLESHEET])) /\
  result (get_pages html) =
  inr [mkPage 800 600 "data:image/png;base64,YWI=" [] []].
Proof.
  split; [discriminate | reflexivity].
Qed.

(** C9.  [get_pages] gives a page for each of the first [min m n]
    renderings, and the data URL of page [i] is
    ["data:image/png;base64,"] followed by the base64 encoding of the
    bytes of rendering [i]; the expression that builds a data URL gives
    that text for every byte string, and no data URL holds a newline. *)
Theorem get_pages_data_url :
  forall html,
    let boxes := pages (fst (get_png_pages html [STYLESHEET])) in
    let pngs := snd (get_png_pages html [STYLESHEET]) in
    let n := Nat.min (length boxes) (length pngs) in
    (exists ps,
        result (get_pages html) = inr ps /\
        length ps = n /\
        map image_data_url ps =
        map (fun png =>
               ("data:image/png;base64," ++
                Base64.b64encode (snd png))%string)
          (firstn n pngs) /\
        Forall
          (fun p =>
             ~ In "010"%char (list_ascii_of_string (image_data_url p)))
          ps) /\
    (forall png_bytes,
        data_url_of png_bytes =
        ("data:image/png;base64," ++ Base64.b64encode png_bytes)%string /\
        ~ In "010"%char (list_ascii_of_string (data_url_of png_bytes))).
Proof.
  intros html boxes pngs n. split.
  - exists (map page_of (Py.izip boxes pngs)).
    split; [unfold result; now rewrite get_pages_run |].
    split; [now rewrite length_map, izip_length |].
    split.
    + unfold n. rewrite <- izip_snd, !map_map.
      apply map_ext. intros item. apply page_of_data_url.
    + apply Forall_forall. intros p Hp. apply in_map_iff in Hp.
      destruct Hp as [item [<- _]]. apply page_of_no_newline.
  - intros png_bytes. split; [| apply data_url_no_newline].
    unfold data_url_of. now rewrite encodestring_without_newlines.
Qed.

Example b64encode_hello :
  Base64.b64encode (Py.b "hello world") = "aGVsbG8gd29ybGQ=".
Proof. reflexivity. Qed.

(** ** Properties of normalize_url *)

Section NormalizeUrl.

Variable url_is_absolute : string -> bool.

Lemma truthy_nonempty (s : string) : Py.truthy s = true <-> s <> "".
Proof. destruct s; simpl; split; congruence. Qed.

Lemma truthy_append_r (s t : string) :
  Py.truthy t = true -> Py.truthy (s ++ t) = true.
Proof. destruct s; simpl; auto. Qed.

Lemma truthy_append_l (s t : string) :
  Py.truthy s = true -> Py.truthy (s ++ t) = true.
Proof. destruct s; simpl; [discriminate | reflexivity]. Qed.

(** A non-empty URL is normalized to a non-empty URL. *)
Lemma normalize_url_truthy url q :
  Py.truthy url = true ->
  exists u,
    normalize_url url_is_absolute (Some url) q = Some u /\
    Py.truthy u = true.
Proof.
  intros Hurl. unfold normalize_url. rewrite Hurl.
  eexists. split; [reflexivity |].
  destruct (negb (url_is_absolute _)); [reflexivity |].
  destruct q as [q |]; [| exact Hurl].
  destruct (Py.truthy q); [now apply truthy_append_l | exact Hurl].
Qed.

End NormalizeUrl.

(** ** Main results on normalize_url *)

(** C5.  [normalize_url] gives [None] for the empty string; a non-empty
    URL gets ["?"] and the query string appended when there is a
    (non-empty) query string, and then ["http://"] in front exactly when
    the result is not absolute.  With a test of absoluteness that knows
    the schemes of the three examples: ["example.com"] becomes
    ["http://example.com"], ["http://x.com"] with ["a=1"] becomes
    ["http://x.com?a=1"], and ["https://y.com"] is unchanged. *)
Theorem normalize_url_rules :
  forall url_is_absolute : string -> bool,
    url_is_absolute "example.com" = false ->
    url_is_absolute "http://x.com?a=1" = true ->
    url_is_absolute "https://y.com" = true ->
    let normalize := normalize_url url_is_absolute in
    normalize (Some "") None = None /\
    normalize (Some "example.com") None = Some "http://example.com" /\
    normalize (Some "http://x.com") (Some "a=1") = Some "http://x.com?a=1" /\
    normalize (Some "https://y.com") None = Some "https://y.com" /\
    (forall url q,
        url <> "" ->
        let with_query :=
          if Py.truthy_opt q
          then (url ++ "?" ++ match q with Some s => s | None => "" end)%string
          else url in
        normalize (Some url) q =
        Some (if url_is_absolute with_query then with_query
              else ("http://" ++ with_query)%string)).
Proof.
  intros uia H1 H2 H3 normalize. unfold normalize, normalize_url.
  split; [reflexivity |]. split; [| split; [| split]].
  - simpl. now rewrite H1.
  - simpl. now rewrite H2.
  - simpl. now rewrite H3.
  - clear H1 H2 H3. intros url q Hurl. cbv zeta.
    apply truthy_nonempty in Hurl. rewrite Hurl.
    destruct q as [q |]; simpl; [destruct (Py.truthy q) |];
      destruct (uia _); reflexivity.
Qed.

Lemma normalize_url_rules_witness :
  normalize_url has_scheme (Some "example.com") None =
  Some "http://example.com" /\
  normalize_url has_scheme (Some "http://x.com") (Some "a=1") =
  Some "http://x.com?a=1".
Proof.
  pose proof (normalize_url_rules has_scheme
                (eq_refl : has_scheme "example.com" = false)
                (eq_refl : has_scheme "http://x.com?a=1" = true)
                (eq_refl : has_scheme "https://y.com" = true)) as H.
  cbv zeta in H. destruct H as [_ [H1 [H2 _]]]. split; assumption.
Defined.

(** C10.  For an empty or absent URL [normalize_url] gives [None],
    whatever the query string is. *)
Theorem normalize_url_no_url :
  forall (url_is_absolute : string -> bool) (q : option string),
    normalize_url url_is_absolute (Some "") q = None /\
    normalize_url url_is_absolute None q = None.
Proof. intros uia q. split; reflexivity. Qed.

(** ** Properties of render_template *)

Section Occurrences.

Lemma starts_with_spec (s t : list byte) :
  starts_with s t = true <-> exists after, t = s ++ after.
Proof.
  revert t. induction s as [| x s IH]; intros t; simpl.
  - split; [intros _; now exists t | reflexivity].
  - destruct t as [| y t].
    + split; [discriminate | intros [after H]; discriminate].
    + rewrite andb_true_iff, IH. split.
      * intros [Hxy [after ->]]. apply byte_dec_bl in Hxy. subst y.
        now exists after.
      * intros [after H]. inversion H; subst.
        split; [now apply byte_dec_lb | now exists after].
Qed.

Lemma occursb_spec (s t : list byte) :
  occursb s t = true <-> occurs_in s t.
Proof.
  unfold occurs_in. induction t as [| y t IH]; simpl.
  - rewrite orb_false_r, starts_with_spec. split.
    + intros [after H]. now exists [], after.
    + intros [before [after H]]. symmetry in H.
      apply app_eq_nil in H. destruct H as [-> H].
      apply app_eq_nil in H. destruct H as [-> ->]. now exists [].
  - rewrite orb_true_iff, starts_with_spec, IH. split.
    + intros [[after H] | [before [after H]]].
      * now exists [], after.
      * exists (y :: before), after. simpl. now rewrite H.
    + intros [[| z before] [after H]].
      * left. now exists after.
      * right. inversion H; subst. now exists before, after.
Qed.

Lemma not_occurs (s t : list byte) : occursb s t = false -> ~ occurs_in s t.
Proof. intros H Hocc. apply occursb_spec in Hocc. congruence. Qed.

(** A part that was written occurs in the encoded document. *)
Lemma part_occurs (x : string) (parts : list string) :
  In x parts ->
  occurs_in (Py.encode_utf8 x) (Py.encode_utf8 (Py.join parts)).
Proof.
  intros Hin. apply in_split in Hin. destruct Hin as [l1 [l2 ->]].
  exists (Py.encode_utf8 (Py.join l1)), (Py.encode_utf8 (Py.join l2)).
  now rewrite join_app, join_cons, !encode_utf8_app.
Qed.

End Occurrences.

Section RenderTemplate.

Variable format_float : float -> string.
Variable HTML : string -> Html.

Lemma write_page_parts (parts : list string) (page : Page) :
  write_page format_float parts page = parts ++ page_parts format_float page.
Proof.
  unfold write_page, page_parts.
  now rewrite !fold_left_append, <- !app_assoc.
Qed.

Lemma fold_left_write_page (ps : list Page) :
  forall parts,
    fold_left (write_page format_float) ps parts = parts ++ flat_map (page_parts format_float) ps.
Proof.
  induction ps as [| p ps IH]; intros parts; simpl.
  - now rewrite app_nil_r.
  - now rewrite IH, write_page_parts, <- app_assoc.
Qed.

(** Without a URL the renderer is not called and the document is the
    form alone. *)
Lemma render_template_falsy (url : option string) :
  Py.truthy_opt url = false ->
  render_template format_float HTML url = (inr (Py.encode_utf8 empty_form), []).
Proof.
  intros Hurl. unfold render_template. rewrite Hurl.
  destruct url as [u |]; [simpl in Hurl; rewrite Hurl |]; reflexivity.
Qed.

(** With a URL, and a document whose base URL is not empty, the
    document is the form followed by the parts of every page. *)
Lemma render_template_pages (u : string) (ps : list Page) :
  Py.truthy u = true ->
  Py.truthy (base_url (HTML u)) = true ->
  result (get_pages (HTML u)) = inr ps ->
  render_template format_float HTML (Some u) =
  (inr (Py.encode_utf8
          (Py.join (form_parts (base_url (HTML u)) ++
                    flat_map (page_parts format_float) ps))),
   [Call_get_png_pages (HTML u) [STYLESHEET]]).
Proof.
  intros Hu Hbase Hps. unfold render_template. simpl Py.truthy_opt.
  rewrite Hu. cbv zeta. simpl Py.truthy_opt. rewrite Hbase.
  rewrite get_pages_run in Hps |- *. unfold result in Hps. simpl in Hps.
  inversion Hps as [Heq]. unfold bind, ret.
  now rewrite fold_left_write_page.
Qed.

(** With a URL, and a document whose base URL is empty, the renderer is
    not asked for pages. *)
Lemma render_template_no_base (u : string) :
  Py.truthy u = true ->
  Py.truthy (base_url (HTML u)) = false ->
  trace (render_template format_float HTML (Some u)) = [].
Proof.
  intros Hu Hbase. unfold render_template. simpl Py.truthy_opt.
  rewrite Hu. cbv zeta. simpl Py.truthy_opt. rewrite Hbase. reflexivity.
Qed.

End RenderTemplate.

(** ** Main results on render_template *)



(** C8.  Without a URL, [render_template] gives the UTF-8 encoding of a
    document that starts with the doctype, holds the form with an empty
    address field and the script that focuses it, and holds no section,
    no image and no PDF link; the renderer is not called. *)
Theorem render_template_without_url :
  forall (format_float : float -> string) (HTML : string -> Html),
    exists out,
      render_template format_float HTML None = (inr out, []) /\
      render_template format_float HTML (Some "") = (inr out, []) /\
      out = Py.encode_utf8 empty_form /\
      starts_with (Py.b "<!doctype html>") out = true /\
      occurs_in (Py.b ("<form action=" ++ Py.dq ++ "/" ++ Py.dq)) out /\
      occurs_in
        (Py.b ("<input name=url style=" ++ Py.dq ++ "width: 80%" ++ Py.dq ++
               " placeholder=" ++ Py.dq ++ "Enter an URL to start" ++ Py.dq ++
               Py.nl ++ "  value=" ++ Py.dq ++ Py.dq ++ " />")) out /\
      occurs_in (Py.b "u.value || u.focus()") out /\
      occurs_in (Py.b ("</form>" ++ Py.nl)) out /\
      ~ occurs_in (Py.b "<section") out /\
      ~ occurs_in (Py.b "<img") out /\
      ~ occurs_in (Py.b "/pdf/") out /\
      ~ occurs_in (Py.b "PDF") out.
Proof.
  intros format_float HTML. exists (Py.encode_utf8 empty_form).
  split; [now apply render_template_falsy |].
  split; [now apply render_template_falsy |].
  split; [reflexivity |]. split; [vm_compute; reflexivity |].
  repeat match goal with
         | |- _ /\ _ => split
         | |- occurs_in _ _ => apply occursb_spec; vm_compute; reflexivity
         | |- ~ occurs_in _ _ => apply not_occurs; vm_compute; reflexivity
         end.
Qed.

(** ** Properties of app *)

Section App.

Variable format_float : float -> string.
Variable url_is_absolute : string -> bool.
Variable HTML : string -> Html.
Variable parse_qs : string -> list (string * list string).
Variable FAVICON_bytes : list byte.

Lemma substring_all (s : string) : String.substring 0 (String.length s) s = s.
Proof. induction s as [| c s IH]; simpl; [reflexivity | now rewrite IH]. Qed.

Lemma slice_pdf (url : string) : Py.slice_from 5 ("/pdf/" ++ url) = url.
Proof. unfold Py.slice_from. simpl. rewrite Nat.sub_0_r. apply substring_all. Qed.

Lemma slice_view (url : string) : Py.slice_from 6 ("/view/" ++ url) = url.
Proof. unfold Py.slice_from. simpl. rewrite Nat.sub_0_r. apply substring_all. Qed.

Lemma startswith_pdf (url : string) :
  Py.startswith ("/pdf/" ++ url) "/pdf/" = true.
Proof. unfold Py.startswith. simpl. destruct url; reflexivity. Qed.

Lemma startswith_view (url : string) :
  Py.startswith ("/view/" ++ url) "/view/" = true.
Proof. unfold Py.startswith. simpl. destruct url; reflexivity. Qed.

Lemma length_truthy (s : string) :
  Py.truthy s = true -> Nat.ltb 5 (String.length ("/pdf/" ++ s)) = true.
Proof. destruct s; [discriminate | reflexivity]. Qed.

(** The renderer calls of a request for [/pdf/<url>]. *)
Lemma app_pdf_trace (environ : Environ) (url u : string) :
  dict_get environ "PATH_INFO" = Some ("/pdf/" ++ url)%string ->
  Py.truthy url = true ->
  normalize_url url_is_absolute (Some url)
    (dict_get environ "QUERY_STRING") = Some u ->
  app format_float url_is_absolute HTML parse_qs FAVICON_bytes environ =
  (inr (make_response (write_pdf (HTML u) [STYLESHEET]) "200 OK"
          "application/pdf"),
   [Call_write_pdf (HTML u) [STYLESHEET]]).
Proof.
  intros Hpath Hurl Hnorm. unfold app. rewrite Hpath.
  change (("/pdf/" ++ url =? "/favicon.ico")%string) with false.
  rewrite startswith_pdf, (length_truthy url Hurl), slice_pdf, Hnorm.
  reflexivity.
Qed.

(** The renderer calls of a request for [/view/<url>]. *)
Lemma app_view_trace (environ : Environ) (url : string) :
  dict_get environ "PATH_INFO" = Some ("/view/" ++ url)%string ->
  trace (app format_float url_is_absolute HTML parse_qs FAVICON_bytes environ) =
  trace (render_template format_float HTML
           (normalize_url url_is_absolute (Some url)
              (dict_get environ "QUERY_STRING"))).
Proof.
  intros Hpath. unfold app. rewrite Hpath.
  change (("/view/" ++ url =? "/favicon.ico")%string) with false.
  change (Py.startswith ("/view/" ++ url) "/pdf/") with false.
  rewrite startswith_view. cbv iota. simpl andb. cbv iota.
  rewrite slice_view.
  unfold trace, bind, ret.
  destruct (render_template format_float HTML _) as [[e | body] t]; simpl;
    [reflexivity | apply app_nil_r].
Qed.

End App.

(** ** Main result on the stylesheet *)

(** C7.  For one URL and one query string, the request for [/pdf/<url>]
    calls [write_pdf] with the list [[STYLESHEET]], and every call the
    request for [/view/<url>] makes to the renderer passes the same list:
    the one module constant [STYLESHEET], whose source sets the root font
    size to 10pt.  The page view makes that call whenever the document has
    a base URL. *)
Theorem app_same_stylesheet :
  forall (format_float : float -> string)
         (url_is_absolute : string -> bool) (HTML : string -> Html)
         (parse_qs : string -> list (string * list string))
         (FAVICON_bytes : list byte)
         (environ_pdf environ_view : Environ) (url : string),
    Py.truthy url = true ->
    dict_get environ_pdf "PATH_INFO" = Some ("/pdf/" ++ url)%string ->
    dict_get environ_view "PATH_INFO" = Some ("/view/" ++ url)%string ->
    dict_get environ_pdf "QUERY_STRING" =
    dict_get environ_view "QUERY_STRING" ->
    let run := app format_float url_is_absolute HTML parse_qs FAVICON_bytes in
    exists u,
      normalize_url url_is_absolute (Some url)
        (dict_get environ_pdf "QUERY_STRING") = Some u /\
      trace (run environ_pdf) = [Call_write_pdf (HTML u) [STYLESHEET]] /\
      trace (run environ_view) =
      (if Py.truthy (base_url (HTML u))
       then [Call_get_png_pages (HTML u) [STYLESHEET]]
       else []) /\
      (forall c_pdf c_view,
          In c_pdf (trace (run environ_pdf)) ->
          In c_view (trace (run environ_view)) ->
          call_stylesheets c_pdf = call_stylesheets c_view /\
          call_stylesheets c_view = [STYLESHEET]) /\
      css_string STYLESHEET =
      (Py.nl ++ "   :root { font-size: 10pt }" ++ Py.nl)%string.
Proof.
  intros format_float uia HTML parse_qs favicon env_pdf env_view url Hurl Hpdf Hview Hq run.
  destruct (normalize_url_truthy uia url (dict_get env_pdf "QUERY_STRING") Hurl)
    as [u [Hnorm Hu]].
  exists u.
  assert (Tpdf : trace (run env_pdf) = [Call_write_pdf (HTML u) [STYLESHEET]]).
  { unfold run. now rewrite (app_pdf_trace format_float uia HTML parse_qs favicon
                               env_pdf url u Hpdf Hurl Hnorm). }
  assert (Tview : trace (run env_view) =
                  if Py.truthy (base_url (HTML u))
                  then [Call_get_png_pages (HTML u) [STYLESHEET]]
                  else []).
  { unfold run. rewrite (app_view_trace format_float uia HTML parse_qs favicon
                           env_view url Hview), <- Hq, Hnorm.
    destruct (Py.truthy (base_url (HTML u))) eqn:Hbase.
    - destruct (get_pages_returns (HTML u)) as [ps Hps].
      now rewrite (render_template_pages format_float HTML u ps Hu Hbase Hps).
    - now apply render_template_no_base. }
  split; [exact Hnorm |]. split; [exact Tpdf |]. split; [exact Tview |].
  split; [| reflexivity].
  intros c_pdf c_view Hin_pdf Hin_view.
  rewrite Tpdf in Hin_pdf. rewrite Tview in Hin_view.
  destruct Hin_pdf as [<- | []].
  destruct (Py.truthy (base_url (HTML u))); [| destruct Hin_view].
  destruct Hin_view as [<- | []]. split; reflexivity.
Qed.

Lemma app_same_stylesheet_witness :
  let HTML := fun url : string =>
    mkHtml url
      (fun _ =>
         (mkDocument [ParentBox (mkStyle None None) (Int 0, Int 0, Int 800, Int 600) []],
          [(800, 600, Py.b "png")%Z]))
      (fun _ => Py.b "%PDF") in
  let run := app format_float_example has_scheme HTML (fun _ => []) [] in
  let environ_pdf :=
    [("PATH_INFO", "/pdf/example.com"); ("QUERY_STRING", "a=1")] in
  let environ_view :=
    [("QUERY_STRING", "a=1"); ("PATH_INFO", "/view/example.com")] in
  trace (run environ_pdf) =
  [Call_write_pdf (HTML "http://example.com?a=1") [STYLESHEET]] /\
  trace (run environ_view) =
  [Call_get_png_pages (HTML "http://example.com?a=1") [STYLESHEET]].
Proof.
  intros HTML run environ_pdf environ_view.
  destruct (app_same_stylesheet format_float_example has_scheme HTML (fun _ => []) []
              environ_pdf environ_view "example.com"
              eq_refl eq_refl eq_refl eq_refl)
    as [u [Hnorm [Hpdf [Hview _]]]].
  vm_compute in Hnorm. injection Hnorm as <-.
  split; [exact Hpdf | exact Hview].
Defined.

(** ** Further results on find_links *)

(** X1.  [find_links] only appends: the two lists it is given are kept,
    in order, as the beginning of the lists it leaves, and what it adds
    after them is what it gives on empty lists, whatever the lists held. *)
Theorem find_links_extends :
  forall box links anchors,
    find_links box (links, anchors) =
    (links ++ links_of box, anchors ++ anchors_of box).
Proof.
  intros box links anchors.
  now rewrite find_links_appends, links_of_eq, anchors_of_eq.
Qed.

(** X2.  The records come in document order: those of a parent box are
    the record of the box itself, then the records of its children, child
    after child from the first to the last. *)
Theorem find_links_document_order :
  forall s a children,
    links_of (ParentBox s a children) =
    links_of (ParentBox s a []) ++ flat_map links_of children /\
    anchors_of (ParentBox s a children) =
    anchors_of (ParentBox s a []) ++ flat_map anchors_of children.
Proof.
  intros s a children. rewrite !links_of_eq, !anchors_of_eq. simpl.
  rewrite !app_nil_r. split; f_equal; apply flat_map_ext; intros c.
  - now rewrite links_of_eq.
  - now rewrite anchors_of_eq.
Qed.

Lemma own_anchors_origin box r :
  In r (own_anchors box) ->
  anchor (style box) = Some (fst r) /\
  Py.truthy (fst r) = true /\
  snd r = hit_area box.
Proof.
  unfold own_anchors. destruct (anchor (style box)) as [name |]; [| intros []].
  destruct (Py.truthy name) eqn:Hname; [| intros []].
  intros [<- | []]. now repeat split.
Qed.

(** X3.  Every anchor record comes from a node of the tree: its name is
    the anchor of that node and is not empty, and its four numbers are the
    hit area of that node.  Text boxes are not left out. *)
Theorem find_links_anchor_origin :
  forall box r,
    In r (anchors_of box) ->
    exists node,
      In node (nodes box) /\
      anchor (style node) = Some (fst r) /\
      fst r <> "" /\
      snd r = hit_area node.
Proof.
  intros box r Hr. rewrite anchors_of_eq, anchors_in_nodes in Hr.
  apply in_flat_map in Hr. destruct Hr as [node [Hnode Hown]].
  apply own_anchors_origin in Hown. destruct Hown as [Ha [Ht Harea]].
  exists node. repeat split; try assumption.
  now apply truthy_nonempty.
Qed.

Lemma find_links_anchor_origin_witness :
  let box :=
    ParentBox (mkStyle None None) (Int 0, Int 0, Int 800, Int 600)
      [TextBox (mkStyle None (Some "top")) (Int 5, Int 6, Int 70, Int 12) "Title"] in
  exists node,
    In node (nodes box) /\
    anchor (style node) = Some "top" /\
    "top" <> "" /\
    (Int 5, Int 6, Int 70, Int 12) = hit_area node.
Proof.
  intros box.
  exact (find_links_anchor_origin box ("top", (Int 5, Int 6, Int 70, Int 12))
           (or_introl eq_refl)).
Defined.

Lemma flat_map_nil_iff {A R : Type} (own : A -> list R) (l : list A) :
  flat_map own l = [] <-> forall x, In x l -> own x = [].
Proof.
  induction l as [| x l IH]; simpl.
  - split; [intros _ y [] | reflexivity].
  - split.
    + intros H. apply app_eq_nil in H. destruct H as [Hx Hl].
      intros y [<- | Hy]; [exact Hx | now apply IH].
    + intros H. rewrite (H x (or_introl eq_refl)).
      apply IH. intros y Hy. apply H. now right.
Qed.

(** X4.  [find_links] leaves both lists empty exactly when no node of the
    tree has a link outside a text box and no node has an anchor name:
    a tree is searched to its leaves, and nothing is invented. *)
Theorem find_links_nothing_iff :
  forall box,
    find_links box ([], []) = ([], []) <->
    (forall node,
        In node (nodes box) ->
        (link (style node) = None \/ isinstance_TextBox node = true) /\
        Py.truthy_opt (anchor (style node)) = false).
Proof.
  intros box. rewrite find_links_appends, links_in_nodes, anchors_in_nodes.
  cbn [app]. split.
  - intros H. injection H as Hl Ha. intros node Hnode.
    assert (Hol := proj1 (flat_map_nil_iff own_links _) Hl node Hnode).
    assert (Hoa := proj1 (flat_map_nil_iff own_anchors _) Ha node Hnode).
    unfold own_links in Hol. unfold own_anchors in Hoa. split.
    + destruct (link (style node)) as [[ty hr] |]; [| now left].
      destruct (isinstance_TextBox node); [now right | discriminate].
    + destruct (anchor (style node)) as [name |]; [| reflexivity].
      simpl. destruct (Py.truthy name); [discriminate | reflexivity].
  - intros H.
    assert (Hl : flat_map own_links (nodes box) = []).
    { apply flat_map_nil_iff. intros node Hnode.
      destruct (H node Hnode) as [[Hnone | Htext] _]; unfold own_links.
      - now rewrite Hnone.
      - rewrite Htext. now destruct (link (style node)) as [[? ?] |]. }
    assert (Ha : flat_map own_anchors (nodes box) = []).
    { apply flat_map_nil_iff. intros node Hnode.
      destruct (H node Hnode) as [_ Hfalse]. unfold own_anchors.
      destruct (anchor (style node)) as [name |]; [| reflexivity].
      simpl in Hfalse. now rewrite Hfalse. }
    now rewrite Hl, Ha.
Qed.

(** ** Further results on get_pages *)

Section MoreBase64.

Import Base64.

Lemma encode_groups_length_aux (n : nat) :
  forall data,
    length data <= n ->
    String.length (encode_groups data) = 4 * ((length data + 2) / 3).
Proof.
  induction n as [| n IH]; intros data Hlen.
  - destruct data; [reflexivity | simpl in Hlen; lia].
  - destruct data as [| x [| y [| z rest]]]; try reflexivity.
    change (String.length (encode_groups (x :: y :: z :: rest)))
      with (4 + String.length (encode_groups rest)).
    rewrite IH by (simpl in Hlen; lia).
    replace (length (x :: y :: z :: rest) + 2)
      with (length rest + 2 + 1 * 3) by (simpl; lia).
    rewrite Nat.div_add by lia. lia.
Qed.

Lemma string_length_app (s t : string) :
  String.length (s ++ t) = String.length s + String.length t.
Proof. induction s as [| c s IH]; simpl; [reflexivity | now rewrite IH]. Qed.

Lemma data_url_of_eq (png_bytes : list byte) :
  data_url_of png_bytes =
  ("data:image/png;base64," ++ b64encode png_bytes)%string.
Proof. unfold data_url_of. now rewrite encodestring_without_newlines. Qed.

End MoreBase64.

(** X5.  When the two enumerations of the renderer have the same length,
    [get_pages] gives one page for every rendered page and drops nothing:
    page [i] has the size and the data URL of rendering [i] and the links
    and anchors of box tree [i]. *)
Theorem get_pages_aligned :
  forall html,
    let boxes := pages (fst (get_png_pages html [STYLESHEET])) in
    let pngs := snd (get_png_pages html [STYLESHEET]) in
    length boxes = length pngs ->
    exists ps,
      result (get_pages html) = inr ps /\
      length ps = length pngs /\
      map page_links ps = map links_of boxes /\
      map page_anchors ps = map anchors_of boxes /\
      map (fun p => (width p, height p)) ps = map fst pngs /\
      map image_data_url ps = map (fun png => data_url_of (snd png)) pngs.
Proof.
  intros html boxes pngs Hlen.
  assert (Hb : map fst (Py.izip boxes pngs) = boxes).
  { rewrite izip_fst, Hlen, Nat.min_id, <- Hlen. apply firstn_all. }
  assert (Hp : map snd (Py.izip boxes pngs) = pngs).
  { rewrite izip_snd, Hlen, Nat.min_id. apply firstn_all. }
  exists (map page_of (Py.izip boxes pngs)).
  split; [unfold result; now rewrite get_pages_run |].
  split; [now rewrite length_map, izip_length, Hlen, Nat.min_id |].
  split; [| split; [| split]].
  - rewrite <- Hb at 2. rewrite !map_map.
    apply map_ext. intros item. apply page_of_links.
  - rewrite <- Hb at 2. rewrite !map_map.
    apply map_ext. intros item. apply page_of_anchors.
  - rewrite <- Hp at 2. rewrite !map_map.
    apply map_ext. intros item. apply page_of_size.
  - rewrite <- Hp at 2. rewrite !map_map.
    apply map_ext. intros item.
    now rewrite page_of_data_url, data_url_of_eq.
Qed.

Lemma get_pages_aligned_witness :
  let html :=
    mkHtml "http://a.org/"
      (fun _ =>
         (mkDocument
            [ParentBox (mkStyle None (Some "p1")) (Int 0, Int 0, Int 800, Int 600) [];
             ParentBox (mkStyle None (Some "p2")) (Int 0, Int 0, Int 800, Int 600) []],
          [(800, 600, Py.b "one"); (800, 600, Py.b "two")]%Z))
      (fun _ => []) in
  exists ps,
    result (get_pages html) = inr ps /\
    length ps = 2 /\
    map page_anchors ps =
    [[("p1", (Int 0, Int 0, Int 800, Int 600))]; [("p2", (Int 0, Int 0, Int 800, Int 600))]].
Proof.
  intros html.
  destruct (get_pages_aligned html eq_refl)
    as [ps [Hres [Hlen [_ [Hanchors _]]]]].
  exists ps. repeat split; assumption.
Defined.

(** X7.  A data URL is made of letters, digits and [+ / = : ; ,] only:
    it holds no quote, no angle bracket, no space and no line break, so it
    cannot end the [src] attribute it is written into. *)
Theorem data_url_characters :
  forall png_bytes,
    forallb data_url_char (list_ascii_of_string (data_url_of png_bytes)) =
    true /\
    data_url_char "034"%char = false /\
    data_url_char "<"%char = false /\
    data_url_char ">"%char = false /\
    data_url_char " "%char = false /\
    data_url_char "010"%char = false.
Proof.
  intros png_bytes. split; [| repeat split; reflexivity].
  rewrite data_url_of_eq, list_ascii_app, forallb_app.
  apply andb_true_iff. split; [reflexivity |].
  apply encode_groups_forallb; reflexivity.
Qed.

(** X8.  The data URL of [n] bytes has [22 + 4 * ceil(n / 3)]
    characters: the prefix and four characters for every three bytes,
    the last group padded. *)
Theorem data_url_length :
  forall png_bytes,
    String.length (data_url_of png_bytes) =
    22 + 4 * ((length png_bytes + 2) / 3).
Proof.
  intros png_bytes. rewrite data_url_of_eq, string_length_app.
  unfold Base64.b64encode.
  now rewrite (encode_groups_length_aux (length png_bytes)).
Qed.

Section Base64Injective.

Import Base64.

Lemma get_nth_error (s : string) :
  forall k, String.get k s = nth_error (list_ascii_of_string s) k.
Proof.
  induction s as [| c s IH]; intros [| k]; simpl; try reflexivity.
  apply IH.
Qed.

Lemma alphabet_NoDup : NoDup (list_ascii_of_string alphabet).
Proof.
  assert (H : nodup ascii_dec (list_ascii_of_string alphabet) =
              list_ascii_of_string alphabet) by (vm_compute; reflexivity).
  rewrite <- H. apply NoDup_nodup.
Qed.

Lemma digit_in_alphabet (n : N) :
  (n < 64)%N ->
  nth_error (list_ascii_of_string alphabet) (N.to_nat n) = Some (digit n).
Proof.
  intros Hn. unfold digit. rewrite get_nth_error.
  destruct (nth_error _ _) as [c |] eqn:Hnth; [reflexivity |].
  apply nth_error_None in Hnth.
  change (length (list_ascii_of_string alphabet)) with 64 in Hnth. lia.
Qed.

Lemma digit_inj (m n : N) :
  (m < 64)%N -> (n < 64)%N -> digit m = digit n -> m = n.
Proof.
  intros Hm Hn Heq.
  assert (Hi := digit_in_alphabet m Hm).
  assert (Hj := digit_in_alphabet n Hn). rewrite <- Heq in Hj.
  apply N2Nat.inj.
  apply (proj1 (NoDup_nth_error (list_ascii_of_string alphabet))
           alphabet_NoDup).
  - change (length (list_ascii_of_string alphabet)) with 64. lia.
  - now rewrite Hi, Hj.
Qed.

Lemma digit_not_pad (n : N) : (n < 64)%N -> digit n <> "="%char.
Proof.
  intros Hn Heq. assert (Hi := digit_in_alphabet n Hn).
  apply nth_error_In in Hi. rewrite Heq in Hi.
  assert (Hno : forallb (fun a => negb (Ascii.eqb a "="))
                  (list_ascii_of_string alphabet) = true) by reflexivity.
  rewrite forallb_forall in Hno. specialize (Hno _ Hi). discriminate.
Qed.

Lemma to_N_inj (x y : byte) : Byte.to_N x = Byte.to_N y -> x = y.
Proof.
  intros H. assert (Hx := Byte.of_to_N x). rewrite H, Byte.of_to_N in Hx.
  congruence.
Qed.

Ltac div_facts X d :=
  pose proof (N.div_mod X d ltac:(lia));
  pose proof (N.mod_lt X d ltac:(lia)).

Ltac byte_facts x :=
  let X := constr:(Byte.to_N x) in
  pose proof (Byte.to_N_bounded x);
  div_facts X 4%N; div_facts X 16%N; div_facts X 64%N.

Ltac forget t :=
  let q := fresh "q" in
  let E := fresh "E" in
  remember t as q eqn:E; clear E.

Ltac forget_divs :=
  repeat match goal with
         | |- context [N.div ?a ?b] => forget (N.div a b)
         | |- context [N.modulo ?a ?b] => forget (N.modulo a b)
         | H : context [N.div ?a ?b] |- _ => forget (N.div a b)
         | H : context [N.modulo ?a ?b] |- _ => forget (N.modulo a b)
         end.

(** Linear arithmetic on the quotients and remainders of byte values. *)
Ltac byte_lia :=
  repeat match goal with
         | x : byte |- _ =>
             lazymatch goal with
             | _ : (Byte.to_N x <= 255)%N |- _ => fail
             | _ => byte_facts x
             end
         end;
  forget_divs; lia.

Lemma six_bits_1 (x : byte) : (Byte.to_N x / 4 < 64)%N.
Proof. byte_lia. Qed.

Lemma six_bits_2 (x y : byte) :
  (Byte.to_N x mod 4 * 16 + Byte.to_N y / 16 < 64)%N.
Proof. byte_lia. Qed.

Lemma six_bits_3 (y z : byte) :
  (Byte.to_N y mod 16 * 4 + Byte.to_N z / 64 < 64)%N.
Proof. byte_lia. Qed.

Lemma six_bits_4 (z : byte) : (Byte.to_N z mod 64 < 64)%N.
Proof. byte_lia. Qed.

Lemma six_bits_2' (x : byte) : (Byte.to_N x mod 4 * 16 < 64)%N.
Proof. byte_lia. Qed.

Lemma six_bits_3' (y : byte) : (Byte.to_N y mod 16 * 4 < 64)%N.
Proof. byte_lia. Qed.

Ltac six_bits :=
  first [ apply six_bits_1 | apply six_bits_2 | apply six_bits_3
        | apply six_bits_4 | apply six_bits_2' | apply six_bits_3' ].

Ltac use_digits :=
  repeat match goal with
         | H : digit _ = "="%char |- _ =>
             exfalso; revert H; apply digit_not_pad; six_bits
         | H : "="%char = digit _ |- _ => symmetry in H
         | H : digit _ = digit _ |- _ =>
             apply digit_inj in H; [| six_bits | six_bits]
         end.

Lemma group_1_inj (x x' : byte) :
  (Byte.to_N x / 4 = Byte.to_N x' / 4)%N ->
  (Byte.to_N x mod 4 * 16 = Byte.to_N x' mod 4 * 16)%N ->
  x = x'.
Proof. intros H1 H2. apply to_N_inj. byte_lia. Qed.

Lemma group_2_inj (x y x' y' : byte) :
  (Byte.to_N x / 4 = Byte.to_N x' / 4)%N ->
  (Byte.to_N x mod 4 * 16 + Byte.to_N y / 16 =
   Byte.to_N x' mod 4 * 16 + Byte.to_N y' / 16)%N ->
  (Byte.to_N y mod 16 * 4 = Byte.to_N y' mod 16 * 4)%N ->
  x = x' /\ y = y'.
Proof.
  intros H1 H2 H3. split; apply to_N_inj; byte_lia.
Qed.

Lemma group_3_inj (x y z x' y' z' : byte) :
  (Byte.to_N x / 4 = Byte.to_N x' / 4)%N ->
  (Byte.to_N x mod 4 * 16 + Byte.to_N y / 16 =
   Byte.to_N x' mod 4 * 16 + Byte.to_N y' / 16)%N ->
  (Byte.to_N y mod 16 * 4 + Byte.to_N z / 64 =
   Byte.to_N y' mod 16 * 4 + Byte.to_N z' / 64)%N ->
  (Byte.to_N z mod 64 = Byte.to_N z' mod 64)%N ->
  x = x' /\ y = y' /\ z = z'.
Proof.
  intros H1 H2 H3 H4. repeat split; apply to_N_inj; byte_lia.
Qed.

(** Different inputs have different encodings. *)
Lemma encode_groups_inj (n : nat) :
  forall d1 d2,
    length d1 <= n -> encode_groups d1 = encode_groups d2 -> d1 = d2.
Proof.
  induction n as [| n IH]; intros d1 d2 Hlen H.
  - destruct d1; [| simpl in Hlen; lia].
    destruct d2 as [| x [| y [| z r]]]; [reflexivity | discriminate..].
  - destruct d1 as [| x [| y [| z r]]];
      destruct d2 as [| x' [| y' [| z' r']]];
      try reflexivity; try discriminate H;
      cbn [encode_groups] in H; cbv zeta in H;
      injection H; intros; use_digits.
    + f_equal. now apply group_1_inj.
    + destruct (group_2_inj x y x' y') as [-> ->]; auto.
    + destruct (group_3_inj x y z x' y' z') as [-> [-> ->]]; auto.
      do 3 f_equal. apply IH; [simpl in Hlen; lia | assumption].
Qed.

End Base64Injective.

(** X6.  The data URL keeps the whole rendering: renderings that differ
    in any byte, or in length, have different data URLs. *)
Theorem data_url_injective :
  forall png1 png2, data_url_of png1 = data_url_of png2 -> png1 = png2.
Proof.
  intros png1 png2 H. rewrite !data_url_of_eq in H.
  unfold Base64.b64encode in H. simpl in H.
  injection H as H. now apply (encode_groups_inj (length png1)).
Qed.

Lemma data_url_injective_witness :
  Py.b "png" = list_byte_of_string "png".
Proof.
  exact (data_url_injective (Py.b "png") (list_byte_of_string "png") eq_refl).
Defined.

(** ** Further results on render_template *)

Section MoreRenderTemplate.

Variable format_float : float -> string.
Variable HTML : string -> Html.

(** When the document has no base URL the page is the form alone. *)
Lemma render_template_no_base_form (u : string) :
  Py.truthy u = true ->
  Py.truthy (base_url (HTML u)) = false ->
  render_template format_float HTML (Some u) = (inr (Py.encode_utf8 empty_form), []).
Proof.
  intros Hu Hbase. unfold render_template. simpl Py.truthy_opt.
  rewrite Hu. cbv zeta. simpl Py.truthy_opt. rewrite Hbase.
  destruct (base_url (HTML u)); [reflexivity | discriminate].
Qed.

(** The three ways [render_template] can go; it never raises. *)
Lemma render_template_cases (url : option string) :
  render_template format_float HTML url = (inr (Py.encode_utf8 empty_form), []) \/
  exists u ps,
    url = Some u /\
    Py.truthy u = true /\
    Py.truthy (base_url (HTML u)) = true /\
    result (get_pages (HTML u)) = inr ps /\
    render_template format_float HTML url =
    (inr (Py.encode_utf8
            (Py.join (form_parts (base_url (HTML u)) ++
                      flat_map (page_parts format_float) ps))),
     [Call_get_png_pages (HTML u) [STYLESHEET]]).
Proof.
  destruct (Py.truthy_opt url) eqn:Hurl.
  - destruct url as [u |]; [| discriminate]. simpl in Hurl.
    destruct (Py.truthy (base_url (HTML u))) eqn:Hbase.
    + right. destruct (get_pages_returns (HTML u)) as [ps Hps].
      exists u, ps. repeat split; try assumption.
      now apply render_template_pages.
    + left. now apply render_template_no_base_form.
  - left. now apply render_template_falsy.
Qed.

Lemma encode_utf8_join (parts : list string) :
  Py.encode_utf8 (Py.join parts) = concat (map Py.encode_utf8 parts).
Proof.
  induction parts as [| x parts IH]; [reflexivity |].
  now rewrite join_cons, encode_utf8_app, IH.
Qed.

End MoreRenderTemplate.

(** X9.  For every link record [(href, x, y, width, height)] of every
    page, the document holds the element
    [<a style="left: {x}px; top: {y}px; width: {width}px; height:
    {height}px" href="{href}"></a>], the four numbers written as [format]
    writes them: links are placed at their hit area as it is, without the
    60 pixels that anchors are moved up by. *)
Theorem render_template_link_overlay :
  forall (format_float : float -> string) (HTML : string -> Html)
         (u : string) (ps : list Page),
    Py.truthy u = true ->
    Py.truthy (base_url (HTML u)) = true ->
    result (get_pages (HTML u)) = inr ps ->
    forall page href x y w h,
      In page ps ->
      In (href, (x, y, w, h)) (page_links page) ->
      let format := format_number format_float in
      exists out,
        result (render_template format_float HTML (Some u)) = inr out /\
        occurs_in
          (Py.encode_utf8
             ("  <a style=" ++ Py.dq ++ "left: " ++ format x ++
              "px; top: " ++ format y ++ "px; width: " ++ format w ++
              "px; height: " ++ format h ++ "px" ++ Py.dq ++ " href=" ++
              Py.dq ++ href ++ Py.dq ++ "></a>" ++ Py.nl))
          out.
Proof.
  intros format_float HTML u ps Hu Hbase Hps page href x y w h Hpage Hlink
    format.
  eexists. split.
  - unfold result.
    rewrite (render_template_pages format_float HTML u ps Hu Hbase Hps).
    reflexivity.
  - apply part_occurs, in_or_app. right.
    apply in_flat_map. exists page. split; [exact Hpage |].
    unfold page_parts. apply in_or_app. right. apply in_or_app. left.
    change (In (link_element format_float (href, (x, y, w, h)))
              (map (link_element format_float) (page_links page))).
    now apply in_map.
Qed.

Lemma render_template_link_overlay_witness :
  let page_box :=
    ParentBox (mkStyle None None) (Int 0, Int 0, Int 800, Int 600)
      [ParentBox (mkStyle (Some ("internal", "sec1")) None)
         (Int 10, Int 20, Int 100, Int 30)
         [TextBox (mkStyle (Some ("internal", "sec1")) None)
            (Int 10, Int 20, Int 100, Int 30) "Section 1"];
       ReplacedBox (mkStyle (Some ("external", "http://b.org/")) None)
         (Float (float_of_int 10), Float (float_of_int 20),
          Float (float_of_int 100), Float (float_of_int 30))] in
  let HTML := fun url : string =>
    mkHtml url
      (fun _ => (mkDocument [page_box], [(800, 600, Py.b "png")%Z]))
      (fun _ => []) in
  (exists out,
      result (render_template format_float_example HTML
                (Some "http://a.org/")) = inr out /\
      occurs_in
        (Py.encode_utf8
           ("  <a style=" ++ Py.dq ++
            "left: 10px; top: 20px; width: 100px; height: 30px" ++ Py.dq ++
            " href=" ++ Py.dq ++ "#sec1" ++ Py.dq ++ "></a>" ++ Py.nl))
        out) /\
  (exists out,
      result (render_template format_float_example HTML
                (Some "http://a.org/")) = inr out /\
      occurs_in
        (Py.encode_utf8
           ("  <a style=" ++ Py.dq ++
            "left: 10.0px; top: 20.0px; width: 100.0px; height: 30.0px" ++
            Py.dq ++ " href=" ++ Py.dq ++ "/view/http://b.org/" ++ Py.dq ++
            "></a>" ++ Py.nl))
        out).
Proof.
  intros page_box HTML. split.
  - exact (render_template_link_overlay format_float_example HTML
             "http://a.org/" [page_of (page_box, (800, 600, Py.b "png")%Z)]
             eq_refl eq_refl eq_refl _ "#sec1"
             (Int 10) (Int 20) (Int 100) (Int 30)
             (or_introl eq_refl) (or_introl eq_refl)).
  - exact (render_template_link_overlay format_float_example HTML
             "http://a.org/" [page_of (page_box, (800, 600, Py.b "png")%Z)]
             eq_refl eq_refl eq_refl _ "/view/http://b.org/"
             (Float (float_of_int 10)) (Float (float_of_int 20))
             (Float (float_of_int 100)) (Float (float_of_int 30))
             (or_introl eq_refl) (or_intror (or_introl eq_refl))).
Defined.

(** X10.  When the document opened for a URL has an empty base URL,
    [render_template] gives the same bytes as without a URL, the form
    alone, and does not ask the renderer for pages. *)
Theorem render_template_empty_base_url :
  forall (format_float : float -> string) (HTML : string -> Html) (u : string),
    Py.truthy u = true ->
    Py.truthy (base_url (HTML u)) = false ->
    render_template format_float HTML (Some u) =
    render_template format_float HTML None /\
    trace (render_template format_float HTML (Some u)) = [].
Proof.
  intros format_float HTML u Hu Hbase.
  rewrite (render_template_no_base_form format_float HTML u Hu Hbase).
  rewrite (render_template_falsy format_float HTML None eq_refl). now split.
Qed.

Lemma render_template_empty_base_url_witness :
  let HTML := fun url : string =>
    mkHtml "" (fun _ => (mkDocument [], [])) (fun _ => []) in
  render_template format_float_example HTML (Some "http://a.org/") =
  render_template format_float_example HTML None /\
  trace (render_template format_float_example HTML (Some "http://a.org/")) =
  [].
Proof.
  intros HTML.
  exact (render_template_empty_base_url format_float_example HTML
           "http://a.org/" eq_refl eq_refl).
Defined.

(** X11.  With a URL and a document that has a base URL, the document is
    the form, with the base URL of the document (not the URL asked for) in
    the address field and in the PDF link, followed by one block for every
    page in order: the section with its image, then the link elements,
    then the anchor elements, then the end of the section. *)
Theorem render_template_layout :
  forall (format_float : float -> string) (HTML : string -> Html)
         (u : string) (ps : list Page),
    Py.truthy u = true ->
    Py.truthy (base_url (HTML u)) = true ->
    result (get_pages (HTML u)) = inr ps ->
    let base := base_url (HTML u) in
    result (render_template format_float HTML (Some u)) =
    inr (Py.encode_utf8
           (template_head ++ base ++ Py.dq ++ " />" ++ Py.nl ++
            "<input type=submit value=Go />" ++ Py.nl ++
            "<a href=" ++ Py.dq ++ "/pdf/" ++ base ++ Py.dq ++ ">PDF</a>" ++
            Py.nl ++ "</form>" ++ Py.nl) ++
         flat_map
           (fun page =>
              Py.encode_utf8
                (section_open (width page) (height page)
                   (image_data_url page)) ++
              flat_map
                (fun r => Py.encode_utf8 (link_element format_float r))
                (page_links page) ++
              flat_map
                (fun r => Py.encode_utf8 (anchor_element format_float r))
                (page_anchors page) ++
              Py.encode_utf8 ("</section>" ++ Py.nl))
           ps).
Proof.
  intros format_float HTML u ps Hu Hbase Hps base. unfold result.
  rewrite (render_template_pages format_float HTML u ps Hu Hbase Hps).
  cbn [fst]. f_equal. rewrite join_app, encode_utf8_app. f_equal.
  clear. induction ps as [| p ps IH]; [reflexivity |].
  cbn [flat_map]. rewrite join_app, encode_utf8_app, IH. f_equal.
  unfold page_parts.
  rewrite !join_app, !encode_utf8_app, !encode_utf8_join, !map_map.
  rewrite !flat_map_concat_map. cbn [map concat].
  now rewrite !app_nil_r.
Qed.

Lemma render_template_layout_witness :
  let page1 :=
    ParentBox (mkStyle None (Some "top")) (Int 0, Int 200, Int 50, Int 10)
      [ParentBox (mkStyle (Some ("internal", "sec1")) None)
         (Int 10, Int 20, Int 100, Int 30)
         [TextBox (mkStyle (Some ("internal", "sec1")) None)
            (Int 10, Int 20, Int 100, Int 30) "Section 1"]] in
  let page2 :=
    ParentBox (mkStyle None None) (Int 0, Int 0, Int 400, Int 300)
      [ParentBox (mkStyle None (Some "sec1"))
         (Float (float_of_int 0), Float (float_of_int 200),
          Float (float_of_int 50), Float (float_of_int 10)) [];
       ReplacedBox (mkStyle (Some ("external", "http://b.org/")) None)
         (Float (float_of_int 10), Float (float_of_int 20),
          Float (float_of_int 100), Float (float_of_int 30))] in
  let HTML := fun url : string =>
    mkHtml "http://a.org/index.html"
      (fun _ =>
         (mkDocument [page1; page2],
          [(800, 600, Py.b "one"); (400, 300, Py.b "two")]%Z))
      (fun _ => []) in
  result (render_template format_float_example HTML (Some "http://a.org")) =
  inr (Py.encode_utf8
         (template_head ++
          "http://a.org/index.html" ++ Py.dq ++ " />" ++ Py.nl ++
          "<input type=submit value=Go />" ++ Py.nl ++ "<a href=" ++ Py.dq ++
          "/pdf/http://a.org/index.html" ++ Py.dq ++ ">PDF</a>" ++ Py.nl ++
          "</form>" ++ Py.nl ++ "<section style=" ++ Py.dq ++
          "width: 800px; height: 600px" ++ Py.dq ++ ">" ++ Py.nl ++
          "  <img src=" ++ Py.dq ++ "data:image/png;base64,b25l" ++ Py.dq ++
          ">" ++ Py.nl ++ "  <a style=" ++ Py.dq ++
          "left: 10px; top: 20px; width: 100px; height: 30px" ++ Py.dq ++
          " href=" ++ Py.dq ++ "#sec1" ++ Py.dq ++ "></a>" ++ Py.nl ++
          "  <a style=" ++ Py.dq ++ "left: 0px; top: 140px;" ++ Py.dq ++
          " name=" ++ Py.dq ++ "top" ++ Py.dq ++ "></a>" ++ Py.nl ++
          "</section>" ++ Py.nl ++ "<section style=" ++ Py.dq ++
          "width: 400px; height: 300px" ++ Py.dq ++ ">" ++ Py.nl ++
          "  <img src=" ++ Py.dq ++ "data:image/png;base64,dHdv" ++ Py.dq ++
          ">" ++ Py.nl ++ "  <a style=" ++ Py.dq ++
          "left: 10.0px; top: 20.0px; width: 100.0px; height: 30.0px" ++
          Py.dq ++ " href=" ++ Py.dq ++ "/view/http://b.org/" ++ Py.dq ++
          "></a>" ++ Py.nl ++ "  <a style=" ++ Py.dq ++
          "left: 0.0px; top: 140.0px;" ++ Py.dq ++ " name=" ++ Py.dq ++
          "sec1" ++ Py.dq ++ "></a>" ++ Py.nl ++ "</section>" ++ Py.nl)).
Proof.
  intros page1 page2 HTML.
  refine (eq_trans
            (render_template_layout format_float_example HTML "http://a.org"
               [page_of (page1, (800, 600, Py.b "one")%Z);
                page_of (page2, (400, 300, Py.b "two")%Z)]
               eq_refl eq_refl eq_refl) _).
  vm_compute. reflexivity.
Defined.

(** ** Further results on normalize_url *)

Section MoreNormalizeUrl.

Variable url_is_absolute : string -> bool.

Lemma normalize_url_some url q u :
  normalize_url url_is_absolute url q = Some u ->
  exists url0 v,
    url = Some url0 /\ Py.truthy url0 = true /\ Py.truthy v = true /\
    (url_is_absolute v = true /\ u = v \/
     url_is_absolute v = false /\ u = ("http://" ++ v)%string).
Proof.
  unfold normalize_url. destruct url as [url0 |]; [| discriminate].
  destruct (Py.truthy url0) eqn:Hurl; [| discriminate].
  set (v := match q with
            | Some s => if Py.truthy s then (url0 ++ "?" ++ s)%string else url0
            | None => url0
            end).
  intros H. exists url0, v. repeat split; try assumption.
  - subst v. destruct q as [s |]; [| exact Hurl].
    destruct (Py.truthy s); [now apply truthy_append_l | exact Hurl].
  - destruct (url_is_absolute v); simpl in H; injection H as <-;
      [left | right]; now split.
Qed.

End MoreNormalizeUrl.

(** X12.  [normalize_url] gives [None] exactly when the URL is [None] or
    empty, and never gives an empty string. *)
Theorem normalize_url_none_iff :
  forall (url_is_absolute : string -> bool) (url q : option string),
    (normalize_url url_is_absolute url q = None <->
     Py.truthy_opt url = false) /\
    normalize_url url_is_absolute url q <> Some "".
Proof.
  intros uia url q. split.
  - unfold normalize_url. destruct url as [u |]; simpl; [| tauto].
    destruct (Py.truthy u); split; congruence.
  - intros H. apply normalize_url_some in H.
    destruct H as [url0 [v [_ [_ [Hv [[_ Heq] | [_ Heq]]]]]]].
    + subst v. discriminate.
    + discriminate.
Qed.

(** X13.  When the test of absoluteness accepts every string that starts
    with ["http://"], every URL [normalize_url] gives is absolute. *)
Theorem normalize_url_absolute :
  forall url_is_absolute : string -> bool,
    (forall s, url_is_absolute ("http://" ++ s)%string = true) ->
    forall url q u,
      normalize_url url_is_absolute url q = Some u ->
      url_is_absolute u = true.
Proof.
  intros uia Hhttp url q u H. apply normalize_url_some in H.
  destruct H as [url0 [v [_ [_ [_ [[Habs ->] | [_ ->]]]]]]].
  - exact Habs.
  - apply Hhttp.
Qed.

Lemma normalize_url_absolute_witness :
  has_scheme "http://example.com?a=1" = true.
Proof.
  exact (normalize_url_absolute has_scheme (fun s => eq_refl)
           (Some "example.com") (Some "a=1") "http://example.com?a=1"
           eq_refl).
Defined.

(** X14.  Under the same condition, normalizing is idempotent: a URL
    that [normalize_url] gave is left as it is when it is normalized
    again without a query string. *)
Theorem normalize_url_idempotent :
  forall url_is_absolute : string -> bool,
    (forall s, url_is_absolute ("http://" ++ s)%string = true) ->
    forall url q u,
      normalize_url url_is_absolute url q = Some u ->
      normalize_url url_is_absolute (Some u) None = Some u.
Proof.
  intros uia Hhttp url q u H. apply normalize_url_some in H.
  destruct H as [url0 [v [_ [_ [Hv [[Habs ->] | [_ ->]]]]]]];
    unfold normalize_url.
  - now rewrite Hv, Habs.
  - now rewrite (truthy_append_l "http://" v eq_refl), Hhttp.
Qed.

Lemma normalize_url_idempotent_witness :
  normalize_url has_scheme (Some "http://example.com?a=1") None =
  Some "http://example.com?a=1".
Proof.
  exact (normalize_url_idempotent has_scheme (fun s => eq_refl)
           (Some "example.com") (Some "a=1") "http://example.com?a=1"
           eq_refl).
Defined.

(** ** Further results on app *)

Section MoreApp.

Variable format_float : float -> string.
Variable url_is_absolute : string -> bool.
Variable HTML : string -> Html.
Variable parse_qs : string -> list (string * list string).
Variable FAVICON_bytes : list byte.

Lemma slice_from_truthy (s : string) :
  forall n, n < String.length s -> Py.truthy (Py.slice_from n s) = true.
Proof.
  unfold Py.slice_from.
  induction s as [| c s IH]; intros n Hn; simpl in Hn; [lia |].
  destruct n as [| n]; [reflexivity |].
  simpl. apply IH. lia.
Qed.

(** Serving the page [render_template] gives. *)
Lemma serve_page (url : option string) (content_type : string) :
  exists out t,
    render_template format_float HTML url = (inr out, t) /\
    at_most_one_styled_call t /\
    (body <- render_template format_float HTML url ;;
     ret (make_response body "200 OK" content_type)) =
    (inr (make_response out "200 OK" content_type), t).
Proof.
  destruct (render_template_cases format_float HTML url) as [H | [u [ps [_ [_ [_ [_ H]]]]]]];
    rewrite H; eexists; eexists; (split; [reflexivity |]); split;
    try reflexivity.
  - now left.
  - right. exists (HTML u). now right.
Qed.

Lemma normalize_url_falsy_query (url q : option string) :
  Py.truthy_opt q = false ->
  normalize_url url_is_absolute url q = normalize_url url_is_absolute url None.
Proof.
  intros Hq. unfold normalize_url. destruct url as [u |]; [| reflexivity].
  destruct q as [s |]; [| reflexivity]. simpl in Hq. now rewrite Hq.
Qed.

(** Every way a request can end. *)
Lemma app_cases (environ : Environ) :
  let run := app format_float url_is_absolute HTML parse_qs FAVICON_bytes in
  (dict_get environ "PATH_INFO" = None /\
   run environ = (inl (KeyError "PATH_INFO"), [])) \/
  (dict_get environ "PATH_INFO" = Some "/" /\
   dict_get (parse_qs (query_or_empty environ)) "url" = Some [] /\
   run environ = (inl IndexError, [])) \/
  (exists chunk st content_type t,
      run environ = (inr (make_response chunk st content_type), t) /\
      (st = "200 OK" \/ st = "404 Not Found") /\
      at_most_one_styled_call t).
Proof.
  intros run. unfold run, app.
  destruct (dict_get environ "PATH_INFO") as [path |];
    [| left; now split].
  right. destruct (String.eqb path "/favicon.ico").
  { right. exists FAVICON_bytes, "200 OK", "image/x-icon", [].
    repeat split; [now left | now left]. }
  destruct (Py.startswith path "/pdf/" && Nat.ltb 5 (String.length path))
    eqn:Hpdf.
  { apply andb_true_iff in Hpdf. destruct Hpdf as [_ Hlen].
    apply Nat.ltb_lt in Hlen. apply slice_from_truthy in Hlen.
    destruct (normalize_url_truthy url_is_absolute _
                (dict_get environ "QUERY_STRING") Hlen) as [u [-> _]].
    right. exists (write_pdf (HTML u) [STYLESHEET]), "200 OK",
      "application/pdf", [Call_write_pdf (HTML u) [STYLESHEET]].
    repeat split; [now left |]. right. exists (HTML u). now left. }
  destruct (Py.startswith path "/view/").
  { destruct (serve_page
                (normalize_url url_is_absolute
                   (Some (Py.slice_from 6 path))
                   (dict_get environ "QUERY_STRING"))
                "text/html; charset=UTF-8") as [out [t [_ [Ht ->]]]].
    right. exists out, "200 OK", "text/html; charset=UTF-8", t.
    repeat split; [now left | exact Ht]. }
  destruct (String.eqb_spec path "/") as [-> | Hroot].
  { fold (query_or_empty environ).
    destruct (dict_get (parse_qs (query_or_empty environ)) "url")
      as [[| first rest] |] eqn:Hargs.
    - left. now repeat split.
    - destruct (serve_page (normalize_url url_is_absolute (Some first) None)
                  "text/html; charset=UTF-8") as [out [t [_ [Ht ->]]]].
      right. exists out, "200 OK", "text/html; charset=UTF-8", t.
      repeat split; [now left | exact Ht].
    - destruct (serve_page (normalize_url url_is_absolute (Some "") None)
                  "text/html; charset=UTF-8") as [out [t [_ [Ht ->]]]].
      right. exists out, "200 OK", "text/html; charset=UTF-8", t.
      repeat split; [now left | exact Ht]. }
  right. exists (Py.b "<h1>Not Found</h1>"), "404 Not Found",
    "text/html; charset=UTF-8", [].
  repeat split; [now right | now left].
Qed.

End MoreApp.

(** X15.  Every response of [app] is built by [make_response]: the body
    is one chunk, the headers are [Content-Type] and [Content-Length] in
    this order, [Content-Length] is the length of the chunk in decimal,
    and the status is [200 OK] or [404 Not Found]. *)
Theorem app_response_well_formed :
  forall (format_float : float -> string)
         (url_is_absolute : string -> bool) (HTML : string -> Html)
         (parse_qs : string -> list (string * list string))
         (FAVICON_bytes : list byte) (environ : Environ) (r : Response),
    result (app format_float url_is_absolute HTML parse_qs FAVICON_bytes
              environ) = inr r ->
    made_response r.
Proof.
  intros format_float uia HTML parse_qs favicon environ r Hr.
  destruct (app_cases format_float uia HTML parse_qs favicon environ)
    as [[_ H] | [[_ [_ H]] | [chunk [st [ct [t [H [Hst _]]]]]]]];
    unfold result in Hr; rewrite H in Hr; try discriminate.
  injection Hr as <-. exists chunk, ct. now repeat split.
Qed.

Lemma app_response_well_formed_witness :
  made_response
    (mkResponse "200 OK"
       [("Content-Type", "image/x-icon"); ("Content-Length", "4")]
       [Py.b "icon"]).
Proof.
  exact (app_response_well_formed format_float_example has_scheme
           (fun url => mkHtml url (fun _ => (mkDocument [], [])) (fun _ => []))
           (fun _ => []) (Py.b "icon") [("PATH_INFO", "/favicon.ico")] _
           eq_refl).
Defined.

(** X16.  A path that is not [/favicon.ico], is not [/], does not start
    with [/view/], and either does not start with [/pdf/] or has nothing
    after [/pdf/], is answered with [404 Not Found] and the body
    [<h1>Not Found</h1>], without a renderer call. *)
Theorem app_not_found :
  forall (format_float : float -> string)
         (url_is_absolute : string -> bool) (HTML : string -> Html)
         (parse_qs : string -> list (string * list string))
         (FAVICON_bytes : list byte) (environ : Environ) (path : string),
    dict_get environ "PATH_INFO" = Some path ->
    String.eqb path "/favicon.ico" = false ->
    Py.startswith path "/pdf/" = false \/ String.length path <= 5 ->
    Py.startswith path "/view/" = false ->
    String.eqb path "/" = false ->
    app format_float url_is_absolute HTML parse_qs FAVICON_bytes environ =
    (inr not_found, []).
Proof.
  intros format_float uia HTML parse_qs favicon environ path Hpath Hfav Hpdf Hview Hroot.
  unfold app. rewrite Hpath, Hfav, Hview, Hroot.
  assert (Hno : Py.startswith path "/pdf/" &&
                Nat.ltb 5 (String.length path) = false).
  { destruct Hpdf as [-> | Hlen]; [reflexivity |].
    apply andb_false_iff. right. apply Nat.ltb_ge. exact Hlen. }
  rewrite Hno. reflexivity.
Qed.

Lemma app_not_found_witness :
  app format_float_example has_scheme
    (fun url => mkHtml url (fun _ => (mkDocument [], [])) (fun _ => []))
    (fun _ => []) [] [("PATH_INFO", "/pdf/"); ("QUERY_STRING", "a=1")] =
  (inr not_found, []).
Proof.
  apply (app_not_found format_float_example has_scheme _ _ _ _ "/pdf/").
  - reflexivity.
  - reflexivity.
  - right. simpl. lia.
  - reflexivity.
  - reflexivity.
Defined.

(** X18.  Sending the form is the same as following a link: the request
    for [/] whose query string gives [url] as first value of [url] gets
    the response, and makes the renderer calls, of the request for
    [/view/<url>] without a query string. *)
Theorem app_root_is_view :
  forall (format_float : float -> string)
         (url_is_absolute : string -> bool) (HTML : string -> Html)
         (parse_qs : string -> list (string * list string))
         (FAVICON_bytes : list byte)
         (environ_root environ_view : Environ) (url : string)
         (others : list string),
    dict_get environ_root "PATH_INFO" = Some "/" ->
    dict_get (parse_qs (query_or_empty environ_root)) "url" =
    Some (url :: others) ->
    dict_get environ_view "PATH_INFO" = Some ("/view/" ++ url)%string ->
    Py.truthy_opt (dict_get environ_view "QUERY_STRING") = false ->
    let run := app format_float url_is_absolute HTML parse_qs FAVICON_bytes in
    run environ_root = run environ_view.
Proof.
  intros format_float uia HTML parse_qs favicon env_root env_view url others
    Hroot Hargs Hview Hq run.
  unfold run, app. rewrite Hroot, Hview.
  change (("/view/" ++ url =? "/favicon.ico")%string) with false.
  change (Py.startswith ("/view/" ++ url) "/pdf/") with false.
  rewrite startswith_view, slice_view.
  change (("/" =? "/favicon.ico")%string) with false.
  change (Py.startswith "/" "/pdf/") with false.
  change (Py.startswith "/" "/view/") with false.
  change (("/" =? "/")%string) with true.
  cbv iota. simpl andb. cbv iota.
  fold (query_or_empty env_root). rewrite Hargs.
  now rewrite (normalize_url_falsy_query uia (Some url) _ Hq).
Qed.

Lemma app_root_is_view_witness :
  let run :=
    app format_float_example has_scheme
      (fun url => mkHtml url (fun _ => (mkDocument [], [])) (fun _ => []))
      (fun _ => [("url", ["a.org"])]) [] in
  run [("PATH_INFO", "/"); ("QUERY_STRING", "url=a.org")] =
  run [("PATH_INFO", "/view/a.org"); ("QUERY_STRING", "")].
Proof.
  intros run.
  exact (app_root_is_view format_float_example has_scheme _ (fun _ => [("url", ["a.org"])]) []
           [("PATH_INFO", "/"); ("QUERY_STRING", "url=a.org")]
           [("PATH_INFO", "/view/a.org"); ("QUERY_STRING", "")]
           "a.org" [] eq_refl eq_refl eq_refl eq_refl).
Defined.

(** X19.  A request without a URL, [/view/] with nothing after it or [/]
    without a [url] argument, gets the empty form with status [200 OK],
    whatever the query string holds, and makes no renderer call. *)
Theorem app_no_url :
  forall (format_float : float -> string)
         (url_is_absolute : string -> bool) (HTML : string -> Html)
         (parse_qs : string -> list (string * list string))
         (FAVICON_bytes : list byte) (environ : Environ),
    dict_get environ "PATH_INFO" = Some "/view/" \/
    dict_get environ "PATH_INFO" = Some "/" /\
    dict_get (parse_qs (query_or_empty environ)) "url" = None ->
    app format_float url_is_absolute HTML parse_qs FAVICON_bytes environ =
    (inr (make_response (Py.encode_utf8 empty_form) "200 OK"
            "text/html; charset=UTF-8"), []).
Proof.
  intros format_float uia HTML parse_qs favicon environ [Hview | [Hroot Hargs]];
    unfold app.
  - rewrite Hview.
    change (("/view/" =? "/favicon.ico")%string) with false.
    change (Py.startswith "/view/" "/pdf/") with false.
    change (Py.startswith "/view/" "/view/") with true.
    change (Py.slice_from 6 "/view/") with "".
    cbv iota. simpl andb. cbv iota.
    change (normalize_url uia (Some "") (dict_get environ "QUERY_STRING"))
      with (@None string).
    now rewrite (render_template_falsy format_float HTML None eq_refl).
  - rewrite Hroot.
    change (("/" =? "/favicon.ico")%string) with false.
    change (Py.startswith "/" "/pdf/") with false.
    change (Py.startswith "/" "/view/") with false.
    change (("/" =? "/")%string) with true.
    cbv iota. simpl andb. cbv iota.
    fold (query_or_empty environ). rewrite Hargs.
    change (normalize_url uia (Some "") None) with (@None string).
    now rewrite (render_template_falsy format_float HTML None eq_refl).
Qed.

Lemma app_no_url_witness :
  app format_float_example has_scheme
    (fun url => mkHtml url (fun _ => (mkDocument [], [])) (fun _ => []))
    (fun _ => []) [] [("QUERY_STRING", "a=1"); ("PATH_INFO", "/view/")] =
  (inr (make_response (Py.encode_utf8 empty_form) "200 OK"
          "text/html; charset=UTF-8"), []).
Proof.
  apply app_no_url. left. reflexivity.
Defined.

(** X20.  Whatever the request, [app] makes at most one call to the
    renderer, and that call passes the list [[STYLESHEET]]. *)
Theorem app_renderer_calls :
  forall (format_float : float -> string)
         (url_is_absolute : string -> bool) (HTML : string -> Html)
         (parse_qs : string -> list (string * list string))
         (FAVICON_bytes : list byte) (environ : Environ),
    at_most_one_styled_call
      (trace (app format_float url_is_absolute HTML parse_qs FAVICON_bytes
                environ)).
Proof.
  intros format_float uia HTML parse_qs favicon environ.
  destruct (app_cases format_float uia HTML parse_qs favicon environ)
    as [[_ H] | [[_ [_ H]] | [chunk [st [ct [t [H [_ Ht]]]]]]]];
    unfold trace; rewrite H; [now left | now left | exact Ht].
Qed.

(** X21.  The request for [/pdf/<url>] with something after [/pdf/] is
    answered with status [200 OK] and content type [application/pdf]; the
    body is what [write_pdf] gives, under [[STYLESHEET]], for the document
    at the normalized URL, the query string included. *)
Theorem app_pdf_response :
  forall (format_float : float -> string)
         (url_is_absolute : string -> bool) (HTML : string -> Html)
         (parse_qs : string -> list (string * list string))
         (FAVICON_bytes : list byte) (environ : Environ) (url : string),
    dict_get environ "PATH_INFO" = Some ("/pdf/" ++ url)%string ->
    Py.truthy url = true ->
    exists u,
      normalize_url url_is_absolute (Some url)
        (dict_get environ "QUERY_STRING") = Some u /\
      result (app format_float url_is_absolute HTML parse_qs FAVICON_bytes
                environ) =
      inr (mkResponse "200 OK"
             [("Content-Type", "application/pdf");
              ("Content-Length",
               Py.str (Z.of_nat (length (write_pdf (HTML u) [STYLESHEET]))))]
             [write_pdf (HTML u) [STYLESHEET]]).
Proof.
  intros format_float uia HTML parse_qs favicon environ url Hpath Hurl.
  destruct (normalize_url_truthy uia url (dict_get environ "QUERY_STRING")
              Hurl) as [u [Hnorm _]].
  exists u. split; [exact Hnorm |].
  now rewrite (app_pdf_trace format_float uia HTML parse_qs favicon environ url u
                 Hpath Hurl Hnorm).
Qed.

Lemma app_pdf_response_witness :
  let HTML := fun url : string =>
    mkHtml url (fun _ => (mkDocument [], []))
      (fun _ => Py.b ("%PDF of " ++ url)) in
  result (app format_float_example has_scheme HTML (fun _ => []) []
            [("PATH_INFO", "/pdf/a.org/x"); ("QUERY_STRING", "p=2")]) =
  inr (mkResponse "200 OK"
         [("Content-Type", "application/pdf"); ("Content-Length", "26")]
         [Py.b "%PDF of http://a.org/x?p=2"]).
Proof.
  intros HTML.
  destruct (app_pdf_response format_float_example has_scheme HTML (fun _ => []) []
              [("PATH_INFO", "/pdf/a.org/x"); ("QUERY_STRING", "p=2")]
              "a.org/x" eq_refl eq_refl) as [u [Hnorm Hres]].
  vm_compute in Hnorm. injection Hnorm as <-. exact Hres.
Defined.
